(** * A shallow embedding of the book recommender of [app.py]

    The Python program is a Streamlit application built on pandas,
    scipy and scikit-learn.  Tables are modelled as lists of records in
    row order, a pandas NaN as [None], a float column as [Q] (the
    rounding of IEEE doubles is not modelled), a Python exception as the
    [Err] branch of [result].  The nearest-neighbour search of
    scikit-learn is a library call: its argument checks are modelled,
    the order in which it returns rows is a parameter of the model. *)

From Stdlib Require Import List String ZArith QArith Sorting.Sorted
  Sorting.Permutation Structures.OrdersEx Lia Bool Lqa.
Import ListNotations.
Open Scope string_scope.

(** ** Python values and exceptions *)

Inductive PyError : Type :=
| ValueError
| IndexError.

Inductive result (A : Type) : Type :=
| Ok : A -> result A
| Err : PyError -> result A.
Arguments Ok {A} _.
Arguments Err {A} _.

Definition bind {A B : Type} (m : result A) (f : A -> result B) : result B :=
  match m with
  | Ok a => f a
  | Err e => Err e
  end.

Notation "x <- m ;; k" := (bind m (fun x => k))
  (at level 61, m at next level, right associativity).

(** Python's [s[:k]] on a list. *)
Definition py_slice_to {A : Type} (l : list A) (k : Z) : list A :=
  if (0 <=? k)%Z then firstn (Z.to_nat k) l
  else firstn (List.length l - Z.to_nat (- k)) l.

(** [int(x)] of a float: truncation toward zero. *)
Definition py_int (q : Q) : Z := Z.quot (Qnum q) (Zpos (Qden q)).

(** ** Sorted unique keys: the row and column index of [pivot_table]

    [pivot_table] groups by the key and returns the distinct keys in
    ascending order. *)

Section SortUniq.
Variable A : Type.
Variable cmp : A -> A -> comparison.

Fixpoint insert_uniq (x : A) (l : list A) : list A :=
  match l with
  | [] => [x]
  | y :: l' =>
      match cmp x y with
      | Eq => l
      | Lt => x :: l
      | Gt => y :: insert_uniq x l'
      end
  end.

Definition sort_uniq (l : list A) : list A :=
  fold_right insert_uniq [] l.

(** Position of a key in the index: [Index.get_loc]. *)
Fixpoint get_loc (x : A) (l : list A) : option nat :=
  match l with
  | [] => None
  | y :: l' =>
      match cmp x y with
      | Eq => Some 0%nat
      | _ => option_map S (get_loc x l')
      end
  end.
End SortUniq.
Arguments insert_uniq {A} cmp x l.
Arguments sort_uniq {A} cmp l.
Arguments get_loc {A} cmp x l.

Definition str_cmp : string -> string -> comparison := String_as_OT.compare.

(** ** Users preprocessing (lines 49-51)

    [users_df["Age"].fillna(users_df["Age"].median())], then the range
    filter [5 <= Age <= 100], then [astype(int)]. *)

Record User := mkUser { user_id : Z; age : option Q }.

Fixpoint insert_Q (x : Q) (l : list Q) : list Q :=
  match l with
  | [] => [x]
  | y :: l' => if Qle_bool x y then x :: l else y :: insert_Q x l'
  end.

Definition sort_Q (l : list Q) : list Q := fold_right insert_Q [] l.

(** [Series.median]: NaN values are skipped; the median of no value is NaN. *)
Definition median (l : list Q) : option Q :=
  let s := sort_Q l in
  let n := List.length s in
  match n with
  | O => None
  | _ =>
      if Nat.odd n then Some (nth (n / 2)%nat s 0%Q)
      else Some ((nth (n / 2 - 1)%nat s 0 + nth (n / 2)%nat s 0) / 2)%Q
  end.

Definition observed_ages (us : list User) : list Q :=
  flat_map (fun u => match age u with Some a => [a] | None => [] end) us.

Definition fillna_age (m : option Q) (u : User) : User :=
  match age u with
  | Some _ => u
  | None => mkUser (user_id u) m
  end.

(** [(Age >= 5) & (Age <= 100)]: a comparison with NaN is false. *)
Definition age_in_range (u : User) : bool :=
  match age u with
  | Some a => Qle_bool 5 a && Qle_bool a 100
  | None => false
  end.

Definition age_to_int (u : User) : Z * Z :=
  (user_id u, match age u with Some a => py_int a | None => 0%Z end).

Definition preprocess_users (users_df : list User) : list (Z * Z) :=
  let users_df := map (fillna_age (median (observed_ages users_df))) users_df in
  let users_df := filter age_in_range users_df in
  map age_to_int users_df.

(** ** Books, ratings and their join (lines 29-57)

    Only the columns the recommender reads are kept: the ISBN, the
    title, and the author and large image URL after the defaults of
    lines 35-43 (a missing value is [None]). *)

Record Book := mkBook {
  isbn : string;
  book_title : string;
  book_author : option string;
  image_url_l : option string
}.

Record Rating := mkRating { r_user : Z; r_isbn : string; r_rating : Z }.

(** A row of [ratings_books]: a rating joined with its book. *)
Record RatedBook := mkRatedBook {
  rb_user : Z;
  rb_isbn : string;
  rb_rating : Z;
  rb_title : string;
  rb_author : option string;
  rb_image : option string
}.

(** [ratings_df[ratings_df["Book-Rating"] != 0]] *)
Definition explicit_ratings (ratings_df : list Rating) : list Rating :=
  filter (fun r => negb (r_rating r =? 0)%Z) ratings_df.

(** [left.merge(right, on="ISBN")]: an inner join, in the order of the
    left rows, each left row paired with every right row of its key. *)
Definition merge_on_isbn (left : list Rating) (right : list Book) : list RatedBook :=
  flat_map (fun r =>
    map (fun b => mkRatedBook (r_user r) (r_isbn r) (r_rating r)
                    (book_title b) (book_author b) (image_url_l b))
      (filter (fun b => String.eqb (isbn b) (r_isbn r)) right)) left.

(** [value_counts()] of one key, read back at one value. *)
Definition title_count (rb : list RatedBook) (t : string) : nat :=
  List.length (filter (fun x => String.eqb (rb_title x) t) rb).

Definition user_count (rb : list RatedBook) (u : Z) : nat :=
  List.length (filter (fun x => Z.eqb (rb_user x) u) rb).

(** Lines 60-62: titles with at least 35 ratings. *)
Definition filter_popular_books (ratings_books : list RatedBook) : list RatedBook :=
  filter (fun x => 35 <=? title_count ratings_books (rb_title x))%nat ratings_books.

(** Lines 64-66: users with at least 10 ratings, counted on the
    title-filtered rows. *)
Definition filter_active_users (ratings_books : list RatedBook) : list RatedBook :=
  filter (fun x => 10 <=? user_count ratings_books (rb_user x))%nat ratings_books.

(** Lines 54-66 up to the pivot. *)
Definition filtered_ratings (ratings_df : list Rating) (books_df : list Book)
  : list RatedBook :=
  let ratings_books := merge_on_isbn (explicit_ratings ratings_df) books_df in
  let ratings_books := filter_popular_books ratings_books in
  filter_active_users ratings_books.

(** ** The pivot table (lines 69-71) *)

Record Pivot := mkPivot {
  pv_index : list string;
  pv_columns : list Z;
  pv_values : list (list Q)
}.

Definition sum_Q (l : list Q) : Q := fold_right Qplus 0 l.

(** [aggfunc="mean"] over the ratings of one cell, then [fillna(0)]. *)
Definition pivot_cell (rb : list RatedBook) (t : string) (u : Z) : Q :=
  let vs := map (fun x => inject_Z (rb_rating x))
              (filter (fun x => String.eqb (rb_title x) t && Z.eqb (rb_user x) u) rb) in
  match vs with
  | [] => 0
  | _ => sum_Q vs / inject_Z (Z.of_nat (List.length vs))
  end.

Definition pivot_table (rb : list RatedBook) : Pivot :=
  let index := sort_uniq str_cmp (map rb_title rb) in
  let columns := sort_uniq Z.compare (map rb_user rb) in
  mkPivot index columns
    (map (fun t => map (fun u => pivot_cell rb t u) columns) index).

Definition build_book_pivot (ratings_df : list Rating) (books_df : list Book) : Pivot :=
  pivot_table (filtered_ratings ratings_df books_df).

(** ** Book metadata for the recommender (lines 120-122)

    [books_df.drop_duplicates(subset="Book-Title")] keeps the first row
    of each title; [book_pivot.reset_index()[["Book-Title"]].merge(books_df,
    on="Book-Title", how="left")] gives every pivot title its rows, or one
    row of NaN when no book has that title. *)

Fixpoint drop_duplicates_title_from (seen : list string) (bs : list Book) : list Book :=
  match bs with
  | [] => []
  | b :: bs' =>
      if existsb (String.eqb (book_title b)) seen
      then drop_duplicates_title_from seen bs'
      else b :: drop_duplicates_title_from (book_title b :: seen) bs'
  end.

Definition drop_duplicates_title (bs : list Book) : list Book :=
  drop_duplicates_title_from [] bs.

Record BookInfo := mkBookInfo {
  bi_title : string;
  bi_author : option string;
  bi_image : option string
}.

Definition merge_left_on_title (titles : list string) (bs : list Book) : list BookInfo :=
  flat_map (fun t =>
    match filter (fun b => String.eqb (book_title b) t) bs with
    | [] => [mkBookInfo t None None]
    | ms => map (fun b => mkBookInfo t (book_author b) (image_url_l b)) ms
    end) titles.

Definition build_book_info (book_pivot : Pivot) (books_df : list Book) : list BookInfo :=
  merge_left_on_title (pv_index book_pivot) (drop_duplicates_title books_df).

(** ** The nearest-neighbour index (lines 77-78, 139)

    [NearestNeighbors(metric="cosine", algorithm="brute", n_neighbors=20)]
    fitted on the rows of the pivot.  [nn_order q] is the order in which
    the brute-force search ranks all fitted rows for the query row [q]
    and [nn_dist q j] the cosine distance it reports; both are computed
    by scikit-learn and are parameters here. *)

Record NNModel := mkNNModel {
  nn_n_neighbors : Z;
  nn_n_samples_fit : nat;
  nn_order : nat -> list nat;
  nn_dist : nat -> nat -> Q
}.

Definition fit_nearest_neighbors (n_neighbors : Z) (book_pivot : Pivot)
    (order : nat -> list nat) (dist : nat -> nat -> Q) : NNModel :=
  mkNNModel n_neighbors (List.length (pv_index book_pivot)) order dist.

(** [model.kneighbors(X, n_neighbors)]: the argument defaults to the
    constructor's; it must be positive and at most the number of fitted
    rows, otherwise scikit-learn raises [ValueError]. *)
Definition kneighbors (model : NNModel) (q : nat) (n_neighbors : option Z)
  : result (list Q * list nat) :=
  let n := match n_neighbors with Some n => n | None => nn_n_neighbors model end in
  if (n <=? 0)%Z then Err ValueError
  else if (Z.of_nat (nn_n_samples_fit model) <? n)%Z then Err ValueError
  else
    let indices := firstn (Z.to_nat n) (nn_order model q) in
    Ok (map (nn_dist model q) indices, indices).

(** ** [recommend_books] (lines 135-156) *)

Record Recommendation := mkRecommendation {
  rec_title : string;
  rec_author : string;
  rec_image_url : string;
  rec_rank : nat
}.

(** [list.sort(key=lambda x: x[1], reverse=True)]: a stable sort on the
    similarity, largest first. *)
Fixpoint insert_by_similarity (x : nat * Q) (l : list (nat * Q)) : list (nat * Q) :=
  match l with
  | [] => [x]
  | y :: l' =>
      if Qle_bool (snd y) (snd x) then x :: l else y :: insert_by_similarity x l'
  end.

Definition sort_by_similarity_desc (l : list (nat * Q)) : list (nat * Q) :=
  fold_right insert_by_similarity [] l.

(** The loop of lines 146-155; [rank] is the counter of [enumerate(..., 1)]. *)
Fixpoint build_recommendations (index : list string) (book_info : list BookInfo)
    (rank : nat) (data : list (nat * Q)) : result (list Recommendation) :=
  match data with
  | [] => Ok []
  | (idx, _) :: rest =>
      match nth_error index idx with
      | None => Err IndexError
      | Some title =>
          let info := filter (fun r => String.eqb (bi_title r) title) book_info in
          recs <- build_recommendations index book_info (S rank) rest ;;
          match info with
          | [] => Ok recs
          | r :: _ =>
              Ok (mkRecommendation title
                    (match bi_author r with Some a => a | None => "Unknown" end)
                    (match bi_image r with Some i => i | None => "No Image" end)
                    rank :: recs)
          end
      end
  end.

(** Lines 141-144 from the answer [(distances, indices)] of the index. *)
Definition recommendation_data (answer : list Q * list nat) : list (nat * Q) :=
  let similarity_scores := map (fun d => 1 - d) (tl (fst answer)) in
  sort_by_similarity_desc (combine (tl (snd answer)) similarity_scores).

Definition recommend_books (book_name : string) (pivot_table : Pivot)
    (model : NNModel) (book_info : list BookInfo) (num_recommendations : Z)
  : result (option string * list Recommendation) :=
  match get_loc str_cmp book_name (pv_index pivot_table) with
  | None => Ok (None, [])
  | Some book_id =>
      answer <- kneighbors model book_id (Some (num_recommendations + 1)%Z) ;;
      recs <- build_recommendations (pv_index pivot_table) book_info 1
                (py_slice_to (recommendation_data answer) num_recommendations) ;;
      Ok (Some ("Recommendations for '" ++ book_name ++ "'"), recs)
  end.

(** ** [get_top_20_books] (lines 126-132)

    [groupby("Book-Title")] yields the groups in ascending title order;
    [agg] counts the ratings of a group and takes the first non-NaN
    author and image; [sort_values("num_ratings", ascending=False)] is
    numpy's default sort, which on the small arrays of the examples below
    is an insertion sort and so keeps the order of equal counts; [head(20)]
    keeps the first twenty. *)

Record TopBook := mkTopBook {
  tb_title : string;
  tb_num_ratings : nat;
  tb_author : option string;
  tb_image : option string
}.

Fixpoint first_valid (l : list (option string)) : option string :=
  match l with
  | [] => None
  | Some v :: _ => Some v
  | None :: l' => first_valid l'
  end.

Definition agg_group (rb : list RatedBook) (t : string) : TopBook :=
  let g := filter (fun x => String.eqb (rb_title x) t) rb in
  mkTopBook t (List.length g) (first_valid (map rb_author g)) (first_valid (map rb_image g)).

Fixpoint insert_by_num_ratings (x : TopBook) (l : list TopBook) : list TopBook :=
  match l with
  | [] => [x]
  | y :: l' =>
      if (tb_num_ratings y <=? tb_num_ratings x)%nat then x :: l
      else y :: insert_by_num_ratings x l'
  end.

Definition sort_by_num_ratings_desc (l : list TopBook) : list TopBook :=
  fold_right insert_by_num_ratings [] l.

Definition get_top_20_books (ratings_df : list Rating) (books_df : list Book) : list TopBook :=
  let ratings_df := explicit_ratings ratings_df in
  let merged := merge_on_isbn ratings_df books_df in
  let top_books := map (agg_group merged) (sort_uniq str_cmp (map rb_title merged)) in
  firstn 20 (sort_by_num_ratings_desc top_books).

(** The call of line 171: [books_df] is the global table, reassigned at
    line 120 to its title-deduplicated version. *)
Definition top_books_page (ratings_df : list Rating) (books_df : list Book) : list TopBook :=
  get_top_20_books ratings_df (drop_duplicates_title books_df).

(** ** Persisting and loading the artifacts (lines 22-24, 81-82)

    A file system maps a path to the bytes of the file, if it exists.
    [pd.to_pickle(obj, path)] and [joblib.dump(obj, path)] open [path]
    for writing (which truncates it) and then write the serialized bytes
    chunk by chunk.  A crash stops the sequence of operations anywhere. *)

Definition FileSystem := string -> option (list nat).

Inductive FsOp : Type :=
| OpenTruncate : string -> FsOp
| WriteChunk : string -> list nat -> FsOp
| Rename : string -> string -> FsOp.

Definition fs_set (fs : FileSystem) (p : string) (c : option (list nat)) : FileSystem :=
  fun p' => if String.eqb p' p then c else fs p'.

Definition fs_step (fs : FileSystem) (op : FsOp) : FileSystem :=
  match op with
  | OpenTruncate p => fs_set fs p (Some [])
  | WriteChunk p c =>
      fs_set fs p (Some (match fs p with Some old => (old ++ c)%list | None => c end))
  | Rename src dst => fs_set (fs_set fs dst (fs src)) src None
  end.

Definition fs_run (fs : FileSystem) (ops : list FsOp) : FileSystem :=
  fold_left fs_step ops fs.

Definition book_pivot_path : string := "book_user_matrix.pkl".
Definition model_knn_path : string := "knn_model.pkl".

Definition dump_to (path : string) (chunks : list (list nat)) : list FsOp :=
  OpenTruncate path :: map (WriteChunk path) chunks.

(** Lines 81-82. *)
Definition save_artifacts (pivot_blob model_blob : list (list nat)) : list FsOp :=
  (dump_to book_pivot_path pivot_blob ++ dump_to model_knn_path model_blob)%list.

Definition file_exists (fs : FileSystem) (p : string) : bool :=
  match fs p with Some _ => true | None => false end.

(** Line 22: the cached artifacts are read when both files exist. *)
Definition loads_cached_artifacts (fs : FileSystem) : bool :=
  file_exists fs book_pivot_path && file_exists fs model_knn_path.

(** ** Books preprocessing of the build branch (lines 29, 34-46)

    The columns of [Books.csv] as [read_csv] gives them, a missing cell
    being [None].  The year column mixes numbers and text and is read as
    text; [pd.to_numeric(..., errors="coerce")] is the library's number
    parser, a parameter here that answers [None] for a cell that is not a
    number and an infinity for ["inf"] or ["1e999"].  The in-place
    [fillna] of a column is the one of pandas 2, which writes into the
    frame. *)

Record RawBook := mkRawBook {
  raw_isbn : string;
  raw_title : string;
  raw_author : option string;
  raw_year : option string;
  raw_publisher : option string;
  raw_image_s : option string;
  raw_image_m : option string;
  raw_image_l : option string
}.

(** A row after line 46: [Image-URL-S] and [Image-URL-M] are dropped. *)
Record CleanBook := mkCleanBook {
  cb_isbn : string;
  cb_title : string;
  cb_author : option string;
  cb_year : Z;
  cb_publisher : option string;
  cb_image_l : option string
}.

(** Lines 35-38: [books_df.loc[books_df.ISBN == k, ["Book-Author",
    "Publisher"]] = [a, p]] on every row of that ISBN. *)
Definition manual_fixes : list (string * string * string) :=
  [("0751352497", "DK", "Dorling Kindersley Publishers Ltd");
   ("9627982032", "Larissa Anne Downe", "Edinburgh Financial Publishing");
   ("193169656X", "Elaine Corvidae", "NovelBooks, Inc.");
   ("1931696993", "Linnea Sinclair", "Novelbooks, Incorporated")].

Definition fix_row (fx : string * string * string) (b : RawBook) : RawBook :=
  let '(k, a, p) := fx in
  if String.eqb (raw_isbn b) k
  then mkRawBook (raw_isbn b) (raw_title b) (Some a) (raw_year b) (Some p)
         (raw_image_s b) (raw_image_m b) (raw_image_l b)
  else b.

Definition apply_manual_fixes (books_df : list RawBook) : list RawBook :=
  fold_left (fun bs fx => map (fix_row fx) bs) manual_fixes books_df.

(** [fillna(d)] of a text column. *)
Definition fillna_str (d : string) (v : option string) : option string :=
  match v with Some s => Some s | None => Some d end.

Definition opt_to_list {A : Type} (v : option A) : list A :=
  match v with Some a => [a] | None => [] end.

(** A value of a float64 column: a number or an infinity; NaN is [None].
    The rounding of doubles is not modelled. *)
Inductive Float : Type :=
| FNum (q : Q)
| FInf (pos : bool).

(** numpy's order on non-NaN values: [-inf] first, [+inf] last. *)
Definition float_le (x y : Float) : bool :=
  match x, y with
  | FInf false, _ => true
  | _, FInf true => true
  | FNum a, FNum b => Qle_bool a b
  | _, _ => false
  end.

Fixpoint insert_float (x : Float) (l : list Float) : list Float :=
  match l with
  | [] => [x]
  | y :: l' => if float_le x y then x :: l else y :: insert_float x l'
  end.

Definition sort_float (l : list Float) : list Float := fold_right insert_float [] l.

(** The mean of the two middle values: [inf + -inf] is NaN. *)
Definition float_mean2 (x y : Float) : option Float :=
  match x, y with
  | FNum a, FNum b => Some (FNum ((a + b) / 2))
  | FInf p, FInf p' => if Bool.eqb p p' then Some (FInf p) else None
  | FInf p, FNum _ | FNum _, FInf p => Some (FInf p)
  end.

(** [Series.median] of a float column: NaN values are skipped, the median
    of no value is NaN. *)
Definition median_float (l : list Float) : option Float :=
  let s := sort_float l in
  let n := List.length s in
  match n with
  | O => None
  | _ =>
      if Nat.odd n then Some (nth (n / 2)%nat s (FNum 0))
      else float_mean2 (nth (n / 2 - 1)%nat s (FNum 0)) (nth (n / 2)%nat s (FNum 0))
  end.

(** [fillna(m)] of a float column. *)
Definition fill_year (m : option Float) (y : option Float) : option Float :=
  match y with Some v => Some v | None => m end.

(** The values of a column when all are finite. *)
Fixpoint finite_values (ys : list (option Float)) : option (list Q) :=
  match ys with
  | [] => Some []
  | Some (FNum q) :: ys' => option_map (cons q) (finite_values ys')
  | _ => None
  end.

Definition int64_in_range (z : Z) : bool := ((- 2 ^ 63 <=? z) && (z <=? 2 ^ 63 - 1))%Z.

(** Lines 40-43 on one row, with its year of line 46. *)
Definition clean_row (b : RawBook) (year : Z) : CleanBook :=
  mkCleanBook (raw_isbn b) (raw_title b) (fillna_str "Unknown" (raw_author b)) year
    (fillna_str "Unknown" (raw_publisher b))
    (match raw_image_l b with Some u => Some u | None => raw_image_m b end).

Section BooksPreprocessing.
Variable to_numeric : string -> option Float.
(** The value numpy's cast of a double to int64 gives when the truncation
    is out of range: the C cast leaves it to the platform (x86-64 gives
    [-2^63]). *)
Variable cast_out_of_range : Q -> Z.

(** [pd.to_numeric(books_df["Year-Of-Publication"], errors="coerce")] on one row. *)
Definition numeric_year (b : RawBook) : option Float :=
  match raw_year b with Some s => to_numeric s | None => None end.

(** numpy's cast of one finite double to int64: truncation toward zero. *)
Definition cast_int64 (q : Q) : Z :=
  if int64_in_range (py_int q) then py_int q else cast_out_of_range q.

(** [astype(int)] of a float column (pandas 2): a NaN or an infinity in the
    column raises [IntCastingNaNError], a [ValueError]; otherwise each
    value is cast to int64. *)
Definition astype_int (ys : list (option Float)) : result (list Z) :=
  match finite_values ys with
  | None => Err ValueError
  | Some qs => Ok (map cast_int64 qs)
  end.

Definition preprocess_books (books_df : list RawBook) : result (list CleanBook) :=
  let books_df := apply_manual_fixes books_df in
  let years := map numeric_year books_df in
  let years := map (fill_year (median_float (flat_map opt_to_list years))) years in
  years <- astype_int years ;;
  Ok (map (fun '(b, y) => clean_row b y) (combine books_df years)).
End BooksPreprocessing.

(** The book table of the join of line 57 (after the preprocessing) and
    the one of lines 110 and 120 (read again from the CSV file). *)
Definition clean_book (c : CleanBook) : Book :=
  mkBook (cb_isbn c) (cb_title c) (cb_author c) (cb_image_l c).

Definition raw_book (b : RawBook) : Book :=
  mkBook (raw_isbn b) (raw_title b) (raw_author b) (raw_image_l b).

(** ** The two pages of [main] (lines 159-230)

    A page is the list of the cards it draws, one per row, in the grid
    column [idx % 4].  A character of a title is one [ascii] here.
    Whether [st.image] draws a URL or raises is decided by Streamlit and
    is a parameter. *)

(** [s[:n] + "..." if len(s) > n else s] *)
Definition shorten (n : nat) (s : string) : string :=
  if (n <? String.length s)%nat then substring 0 n s ++ "..." else s.

Inductive ImageCell : Type :=
| ShowImage (url : option string) (caption : string)
| ImageText (msg : string).

Record Card := mkCard {
  card_col : nat;
  card_rank : nat;
  card_image : ImageCell;
  card_title : string;
  card_author : string;
  card_ratings : option nat
}.

Inductive RecPage : Type :=
| RecIdle
| RecWarning (msg : string)
| RecShown (header : option string) (cards : list Card)
| RecNotFound (msg : string)
| RecFailed (e : PyError).

Section Pages.
Variable st_image_ok : option string -> bool.

(** Lines 181-187: a NaN URL is truthy and differs from "No Image". *)
Definition top_image (row : TopBook) : ImageCell :=
  let truthy := match tb_image row with Some u => negb (String.eqb u "") | None => true end in
  let no_image := match tb_image row with Some u => String.eqb u "No Image" | None => false end in
  if truthy && negb no_image then
    if st_image_ok (tb_image row) then ShowImage (tb_image row) (shorten 25 (tb_title row))
    else ImageText "Image not available"
  else ImageText "Image not available".

(** Lines 176-191 for the row at position [idx]; [len] of a NaN author
    raises [TypeError], outside any [try]: [None]. *)
Definition render_top_row (idx : nat) (row : TopBook) : option Card :=
  match tb_author row with
  | None => None
  | Some a =>
      Some (mkCard (idx mod 4) (idx + 1) (top_image row) (shorten 30 (tb_title row))
              ("by " ++ shorten 25 a) (Some (tb_num_ratings row)))
  end.

Fixpoint render_top_rows (idx : nat) (rows : list TopBook) : option (list Card) :=
  match rows with
  | [] => Some []
  | row :: rows' =>
      match render_top_row idx row with
      | None => None
      | Some c => option_map (cons c) (render_top_rows (S idx) rows')
      end
  end.

(** Lines 171-191: the home page, [None] when drawing it raises. *)
Definition top_page (ratings_df : list Rating) (books_df : list Book) : option (list Card) :=
  render_top_rows 0 (top_books_page ratings_df books_df).

(** Lines 215-221. *)
Definition rec_image (rec : Recommendation) : ImageCell :=
  if negb (String.eqb (rec_image_url rec) "") && negb (String.eqb (rec_image_url rec) "No Image") then
    if st_image_ok (Some (rec_image_url rec))
    then ShowImage (Some (rec_image_url rec)) (shorten 25 (rec_title rec))
    else ImageText "Image not available"
  else ImageText "No image available".

Fixpoint render_recs (idx : nat) (recs : list Recommendation) : list Card :=
  match recs with
  | [] => []
  | rec :: recs' =>
      mkCard (idx mod 4) (rec_rank rec) (rec_image rec) (shorten 30 (rec_title rec))
        ("by " ++ shorten 25 (rec_author rec)) None :: render_recs (S idx) recs'
  end.

(** Lines 199-230: the title picked in the select box (whose options are
    [title_options]) and whether "Recommend" was pressed; the call uses
    the default [num_recommendations=5]. *)
Definition title_options (book_pivot : Pivot) : list string := "" :: pv_index book_pivot.

Definition recommend_page (book_title : string) (clicked : bool) (book_pivot : Pivot)
    (model_knn : NNModel) (book_info : list BookInfo) : RecPage :=
  if negb clicked then RecIdle
  else if String.eqb book_title "" then RecWarning "Please select a book title."
  else
    match recommend_books book_title book_pivot model_knn book_info 5 with
    | Err e => RecFailed e
    | Ok (message, recommendations) =>
        match recommendations with
        | [] => RecNotFound ("Book '" ++ book_title ++ "' not found in the dataset. Please check the spelling.")
        | _ => RecShown message (render_recs 0 recommendations)
        end
    end.
End Pages.

(** ** Start of the application (lines 12-31, 81-88, 98-117)

    [load_or_preprocess_data] runs at line 88, outside any [try]; lines
    107-117 then read the four files again.  Whether pandas or joblib
    accept the bytes of a file is a parameter ([readable path bytes]), as
    is the preprocessing of lines 33-78 from the bytes of the three CSV
    files: the chunks the two dumps write, or [None] when it raises.
    [st.cache_data] memoizes within one process and does not change the
    outcome of a start. *)

(** [os.path.join("Dataset", ...)] on a POSIX system. *)
Definition books_csv_path : string := "Dataset/Books.csv".
Definition ratings_csv_path : string := "Dataset/Ratings.csv".
Definition users_csv_path : string := "Dataset/Users.csv".

Inductive IOError : Type :=
| FileNotFoundError (path : string)
| UnreadableFile (path : string).

Inductive LoadError : Type :=
| LoadIOError (e : IOError)
| PreprocessError.

Inductive StartupOutcome : Type :=
| Crashed (e : LoadError)
| FileNotFoundShown (path : string)
| ErrorShown (path : string)
| Started (fs : FileSystem).

Definition sum_bind {E A B : Type} (m : E + A) (f : A -> E + B) : E + B :=
  match m with inl e => inl e | inr a => f a end.

Section Startup.
Variable readable : string -> list nat -> bool.
Variable preprocess : list nat -> list nat -> list nat -> option (list (list nat) * list (list nat)).

Definition read_file (fs : FileSystem) (p : string) : IOError + list nat :=
  match fs p with
  | None => inl (FileNotFoundError p)
  | Some bytes => if readable p bytes then inr bytes else inl (UnreadableFile p)
  end.

Definition load_read (fs : FileSystem) (p : string) : LoadError + list nat :=
  match read_file fs p with inl e => inl (LoadIOError e) | inr b => inr b end.

(** Lines 22-85; the result is the file system after the call. *)
Definition load_or_preprocess_data (fs : FileSystem) : LoadError + FileSystem :=
  if loads_cached_artifacts fs then
    sum_bind (load_read fs book_pivot_path) (fun _ =>
    sum_bind (load_read fs model_knn_path) (fun _ =>
    sum_bind (load_read fs books_csv_path) (fun _ =>
    sum_bind (load_read fs ratings_csv_path) (fun _ => inr fs))))
  else
    sum_bind (load_read fs books_csv_path) (fun books =>
    sum_bind (load_read fs ratings_csv_path) (fun ratings =>
    sum_bind (load_read fs users_csv_path) (fun users =>
    match preprocess books ratings users with
    | None => inl PreprocessError
    | Some (pivot_blob, model_blob) => inr (fs_run fs (save_artifacts pivot_blob model_blob))
    end))).

(** Lines 107-111. *)
Definition reload_globals (fs : FileSystem) : IOError + unit :=
  sum_bind (read_file fs book_pivot_path) (fun _ =>
  sum_bind (read_file fs model_knn_path) (fun _ =>
  sum_bind (read_file fs books_csv_path) (fun _ =>
  sum_bind (read_file fs ratings_csv_path) (fun _ => inr tt)))).

Definition startup (fs : FileSystem) : StartupOutcome :=
  match load_or_preprocess_data fs with
  | inl e => Crashed e
  | inr fs' =>
      match reload_globals fs' with
      | inl (FileNotFoundError p) => FileNotFoundShown p
      | inl (UnreadableFile p) => ErrorShown p
      | inr _ => Started fs'
      end
  end.
End Startup.

(** ** Views of the tables used by the properties below *)

Definition cell_group (rb : list RatedBook) (t : string) (u : Z) : list RatedBook :=
  filter (fun x => String.eqb (rb_title x) t && Z.eqb (rb_user x) u) rb.

Definition fix_all (b : RawBook) : RawBook :=
  fold_left (fun b fx => fix_row fx b) manual_fixes b.

Definition strip_rb (x : RatedBook) : RatedBook :=
  mkRatedBook (rb_user x) (rb_isbn x) (rb_rating x) (rb_title x) None None.

Definition book_key (b : Book) : string * string := (isbn b, book_title b).

Definition first_book_info (bs : list Book) (t : string) : BookInfo :=
  match find (fun b => String.eqb (book_title b) t) bs with
  | Some b => mkBookInfo t (book_author b) (image_url_l b)
  | None => mkBookInfo t None None
  end.

Definition shown_author (bs : list Book) (t : string) : string :=
  match bi_author (first_book_info bs t) with Some a => a | None => "Unknown" end.

Definition shown_image (bs : list Book) (t : string) : string :=
  match bi_image (first_book_info bs t) with Some i => i | None => "No Image" end.

(** ** Concrete inputs used by the examples below *)

Definition isbn_of (n : nat) : string := String (Ascii.ascii_of_nat (48 + n)) EmptyString.

(** Ten editions of one title, all with the ISBNs "0".."9". *)
Definition ten_editions : list Book :=
  map (fun n => mkBook (isbn_of n) "X" None None) (seq 0 10).

(** User 1 rates every edition; users 2..26 rate edition "0" once each. *)
Definition one_avid_reader : list Rating :=
  map (fun n => mkRating 1 (isbn_of n) 8) (seq 0 10) ++
  map (fun u => mkRating (Z.of_nat u) (isbn_of 0) 7) (seq 2 25).

Definition small_pivot : Pivot := mkPivot ["A"; "B"] [1%Z] [[5]; [4]].

Definition small_model : NNModel :=
  fit_nearest_neighbors 20 small_pivot (fun q => [q; (1 - q)%nat]) (fun _ _ => 0).

Definition small_books : list Book :=
  [mkBook "a" "A" (Some "Ann") (Some "http://a"); mkBook "b" "B" None None].

(** Thirty titles "t0".."t29", an index that returns rows in order. *)
Definition title_of (n : nat) : string := "t" ++ isbn_of (n / 10) ++ isbn_of (n mod 10).

Definition pivot30 : Pivot :=
  mkPivot (sort_uniq str_cmp (map title_of (seq 0 30))) [1%Z] (map (fun _ => [1]) (seq 0 30)).

(** The query row first, then the other rows in index order. *)
Definition rows_from (q n : nat) : list nat := q :: filter (fun j => negb (j =? q)%nat) (seq 0 n).

Definition model30 : NNModel :=
  fit_nearest_neighbors 20 pivot30 (fun q => rows_from q 30)
    (fun q j => if (j =? q)%nat then 0 else inject_Z (Z.of_nat j) / 100).

Definition books30 : list Book := map (fun n => mkBook (title_of n) (title_of n) None None) (seq 0 30).

(** Three titles; the index puts "B" at distance 0 of "A" before "A" itself. *)
Definition tie_pivot : Pivot := mkPivot ["A"; "B"; "C"] [1%Z; 2%Z] [[5; 4]; [5; 4]; [0; 1]].

Definition tie_model : NNModel :=
  fit_nearest_neighbors 20 tie_pivot (fun q => match q with 0%nat => [1; 0; 2] | 1%nat => [0; 1; 2] | _ => [2; 0; 1] end)%nat
    (fun q j => match q, j with
                | 0, 0 | 0, 1 | 1, 0 | 1, 1 | 2, 2 => 0%Q
                | _, _ => 1%Q
                end%nat).

Definition tie_books : list Book :=
  [mkBook "a" "A" (Some "Ann") None; mkBook "b" "B" (Some "Bob") None; mkBook "c" "C" (Some "Cy") None].

(** Two titles with one explicit rating each; "B" is rated first. *)
Definition two_titles_books : list Book :=
  [mkBook "a1" "A" (Some "Ann") None; mkBook "b" "B" (Some "Bob") None; mkBook "a2" "A" (Some "Ann") None].

Definition two_titles_ratings : list Rating :=
  [mkRating 1 "b" 5; mkRating 2 "a1" 7; mkRating 3 "a2" 6; mkRating 4 "b" 0].

(** One explicit rating each for "B" and "A", "B" first. *)
Definition tied_titles_ratings : list Rating :=
  [mkRating 1 "b" 5; mkRating 2 "a1" 7; mkRating 4 "b" 0].

(** Three titles with four editions each; ten users rate every edition. *)
Definition three_titles_books : list Book :=
  flat_map (fun t => map (fun e => mkBook (isbn_of t ++ isbn_of e) (title_of t) None None) (seq 0 4))
    (seq 0 3).

Definition ten_readers : list Rating :=
  flat_map (fun u => map (fun b => mkRating (Z.of_nat u) (isbn b) 6) three_titles_books) (seq 1 10).

Definition three_titles_order (q : nat) : list nat := rows_from q 3.

(** Artifacts of an earlier build on disk. *)
Definition earlier_build_fs : FileSystem :=
  fun p => if String.eqb p book_pivot_path then Some [7%nat]
           else if String.eqb p model_knn_path then Some [8%nat]
           else None.

(** A users table with two ages in range and one missing, and one with no age. *)
Definition sample_users : list User :=
  [mkUser 1 (Some 30%Q); mkUser 2 None; mkUser 3 (Some 60%Q)].

Definition ageless_users : list User := [mkUser 1 None; mkUser 2 None].

(** A number parser for the year column: a non-empty string of decimal
    digits is a number, ["inf"] and ["-inf"] are the infinities, anything
    else is NaN. *)
Fixpoint parse_digits (s : string) (acc : Z) : option Z :=
  match s with
  | EmptyString => Some acc
  | String c r =>
      let d := Ascii.nat_of_ascii c in
      if (48 <=? d)%nat && (d <=? 57)%nat then parse_digits r (acc * 10 + Z.of_nat (d - 48))%Z
      else None
  end.

Definition decimal_year (s : string) : option Float :=
  if String.eqb s "inf" then Some (FInf true)
  else if String.eqb s "-inf" then Some (FInf false)
  else match s with
       | EmptyString => None
       | _ => option_map (fun z => FNum (inject_Z z)) (parse_digits s 0)
       end.

(** The int64 cast of an out-of-range double on x86-64. *)
Definition x86_cast_out_of_range (q : Q) : Z := (- 2 ^ 63)%Z.

(** Three rows of [Books.csv]: one of the four fixed ISBNs, one with a
    publisher in the year column, one without image. *)
Definition sample_raw_books : list RawBook :=
  [mkRawBook "0751352497" "A" None (Some "2002") None None None (Some "http://a");
   mkRawBook "b1" "B" (Some "Bob") (Some "DK Publishing Inc") (Some "P") None (Some "http://m") None;
   mkRawBook "c1" "C" (Some "Cy") (Some "1990") None None None None].

Definition sample_ratings : list Rating :=
  [mkRating 1 "0751352497" 8; mkRating 2 "b1" 0; mkRating 3 "c1" 5].

(** A first start: the three CSV files and no artifact. *)
Definition fresh_fs : FileSystem :=
  fun p => if String.eqb p books_csv_path then Some [1%nat]
           else if String.eqb p ratings_csv_path then Some [2%nat]
           else if String.eqb p users_csv_path then Some [3%nat]
           else None.

(** A loader that refuses an empty file. *)
Definition nonempty_file (p : string) (b : list nat) : bool :=
  match b with [] => false | _ => true end.

(** A build that writes the matrix in two chunks and the index in one. *)
Definition sample_build (books ratings users : list nat) : option (list (list nat) * list (list nat)) :=
  Some ([books; ratings], [users]).

(** * Proofs *)

(** ** Sorted unique keys *)

Section SortUniqFacts.
Variable A : Type.
Variable cmp : A -> A -> comparison.
Variable lt : A -> A -> Prop.
Hypothesis cmp_spec : forall x y, CompSpec eq lt x y (cmp x y).
Hypothesis lt_trans : forall x y z, lt x y -> lt y z -> lt x z.
Hypothesis lt_irrefl : forall x, ~ lt x x.

Lemma cmp_Eq_eq x y : cmp x y = Eq -> x = y.
Proof.
  intro H. specialize (cmp_spec x y). rewrite H in cmp_spec.
  inversion cmp_spec; assumption.
Qed.

Lemma In_insert_uniq z x l : In z (insert_uniq cmp x l) <-> x = z \/ In z l.
Proof.
  induction l as [|y l IH]; simpl.
  - tauto.
  - destruct (cmp x y) eqn:E; simpl.
    + apply cmp_Eq_eq in E. subst. tauto.
    + tauto.
    + rewrite IH. tauto.
Qed.

Lemma In_sort_uniq z l : In z (sort_uniq cmp l) <-> In z l.
Proof.
  induction l as [|x l IH]; simpl.
  - tauto.
  - rewrite In_insert_uniq, IH. tauto.
Qed.

Lemma insert_uniq_sorted x l : Sorted lt l -> Sorted lt (insert_uniq cmp x l).
Proof.
  induction 1 as [|y l Hl IH Hhd]; simpl.
  - repeat constructor.
  - specialize (cmp_spec x y). destruct (cmp x y) eqn:E.
    + constructor; assumption.
    + constructor; [constructor; assumption | constructor].
      inversion cmp_spec; assumption.
    + constructor; [exact IH |].
      destruct l as [|y' l]; simpl.
      * constructor. inversion cmp_spec; assumption.
      * inversion Hhd; subst. simpl.
        assert (lt y x) by (inversion cmp_spec; assumption).
        destruct (cmp x y'); constructor; assumption.
Qed.

Lemma sort_uniq_sorted l : Sorted lt (sort_uniq cmp l).
Proof.
  induction l as [|x l IH]; simpl; [constructor | apply insert_uniq_sorted; exact IH].
Qed.

Lemma sort_uniq_NoDup l : NoDup (sort_uniq cmp l).
Proof.
  assert (H : StronglySorted lt (sort_uniq cmp l)).
  { apply Sorted_StronglySorted; [exact lt_trans | apply sort_uniq_sorted]. }
  induction H as [|x l' _ IH Hall]; constructor; [| exact IH].
  intro Hin. rewrite Forall_forall in Hall. exact (lt_irrefl x (Hall x Hin)).
Qed.

Lemma get_loc_not_In x l : ~ In x l -> get_loc cmp x l = None.
Proof.
  induction l as [|y l IH]; simpl; intro Hn; [reflexivity |].
  destruct (cmp x y) eqn:E.
  - apply cmp_Eq_eq in E. subst. tauto.
  - rewrite IH; tauto.
  - rewrite IH; tauto.
Qed.

Lemma get_loc_In x l : In x l -> exists q, get_loc cmp x l = Some q /\ nth_error l q = Some x.
Proof.
  induction l as [|y l IH]; simpl; intro Hin; [contradiction |].
  destruct (cmp x y) eqn:E.
  - apply cmp_Eq_eq in E. subst. exists 0%nat. split; reflexivity.
  - destruct Hin as [Hyx | Hin].
    + subst y. specialize (cmp_spec x x). rewrite E in cmp_spec. inversion cmp_spec.
      exfalso; eapply lt_irrefl; eassumption.
    + destruct (IH Hin) as [q [-> Hq]]. exists (S q). split; [reflexivity | exact Hq].
  - destruct Hin as [Hyx | Hin].
    + subst y. specialize (cmp_spec x x). rewrite E in cmp_spec. inversion cmp_spec.
      exfalso; eapply lt_irrefl; eassumption.
    + destruct (IH Hin) as [q [-> Hq]]. exists (S q). split; [reflexivity | exact Hq].
Qed.

Lemma get_loc_nth x l q : get_loc cmp x l = Some q -> nth_error l q = Some x.
Proof.
  revert q. induction l as [|y l IH]; simpl; intros q H; [discriminate |].
  destruct (cmp x y) eqn:E.
  - apply cmp_Eq_eq in E. subst. injection H as <-. reflexivity.
  - destruct (get_loc cmp x l) as [q'|] eqn:E'; simpl in H; [|discriminate].
    injection H as <-. simpl. apply IH. reflexivity.
  - destruct (get_loc cmp x l) as [q'|] eqn:E'; simpl in H; [|discriminate].
    injection H as <-. simpl. apply IH. reflexivity.
Qed.
End SortUniqFacts.

Lemma str_cmp_spec : forall x y, CompSpec eq String_as_OT.lt x y (str_cmp x y).
Proof. exact String_as_OT.compare_spec. Qed.

Lemma str_lt_trans : forall x y z, String_as_OT.lt x y -> String_as_OT.lt y z -> String_as_OT.lt x z.
Proof. intros x y z. apply (StrictOrder_Transitive (R := String_as_OT.lt)). Qed.

Lemma str_lt_irrefl : forall x, ~ String_as_OT.lt x x.
Proof. intros x. apply (StrictOrder_Irreflexive (R := String_as_OT.lt)). Qed.

Lemma Z_cmp_spec : forall x y, CompSpec eq Z.lt x y (Z.compare x y).
Proof. exact Z.compare_spec. Qed.

Lemma In_sort_uniq_str z l : In z (sort_uniq str_cmp l) <-> In z l.
Proof. apply (In_sort_uniq _ _ _ str_cmp_spec). Qed.

Lemma In_sort_uniq_Z z l : In z (sort_uniq Z.compare l) <-> In z l.
Proof. apply (In_sort_uniq _ _ _ Z_cmp_spec). Qed.

Lemma sort_uniq_str_NoDup l : NoDup (sort_uniq str_cmp l).
Proof. apply (sort_uniq_NoDup _ _ _ str_cmp_spec str_lt_trans str_lt_irrefl). Qed.

(** ** Ingestion of users *)

Lemma in_range_spec (u : User) :
  age_in_range u = true <-> exists x, age u = Some x /\ 5 <= x /\ x <= 100.
Proof.
  unfold age_in_range. destruct (age u) as [x|]; split.
  - intro H. apply andb_true_iff in H as [H1 H2].
    apply Qle_bool_iff in H1, H2. eauto.
  - intros (x' & Hx & H1 & H2). injection Hx as <-.
    apply andb_true_iff; split; apply Qle_bool_iff; assumption.
  - discriminate.
  - intros (x' & Hx & _). discriminate.
Qed.

(** C8: a missing age is replaced by the median of the ages observed over
    the whole user table, and only then are users kept whose (imputed) age
    lies in [5, 100]; the median is not taken over the kept users. *)
Theorem preprocess_users_imputes_full_median (users_df : list User) (i a : Z) :
  In (i, a) (preprocess_users users_df) <->
  exists u, In u users_df /\ user_id u = i /\
    exists x, match age u with
              | Some y => x = y
              | None => median (observed_ages users_df) = Some x
              end /\ 5 <= x /\ x <= 100 /\ a = py_int x.
Proof.
  unfold preprocess_users. rewrite in_map_iff. split.
  - intros (u' & Heq & Hin). apply filter_In in Hin as [Hin Hr].
    apply in_map_iff in Hin as (u & <- & Hu).
    apply in_range_spec in Hr as (x & Hx & H1 & H2).
    exists u. split; [exact Hu |].
    unfold fillna_age, age_to_int in *. destruct (age u) as [y|] eqn:Ea.
    + rewrite Ea in Hx. injection Hx as ->. rewrite Ea in Heq.
      injection Heq as <- <-. split; [reflexivity |]. exists x. auto.
    + simpl in Hx, Heq. rewrite Hx in Heq. injection Heq as <- <-.
      split; [reflexivity |]. exists x. auto.
  - intros (u & Hu & <- & x & Hx & H1 & H2 & ->).
    exists (fillna_age (median (observed_ages users_df)) u).
    unfold fillna_age, age_to_int. destruct (age u) as [y|] eqn:Ea.
    + subst y. split; [rewrite Ea; reflexivity |].
      apply filter_In. split.
      * apply in_map_iff. exists u. unfold fillna_age. rewrite Ea. auto.
      * apply in_range_spec. eauto.
    + split; [simpl; rewrite Hx; reflexivity |].
      apply filter_In. split.
      * apply in_map_iff. exists u. unfold fillna_age. rewrite Ea. auto.
      * apply in_range_spec. simpl. eauto.
Qed.

(** ** The user-item matrix *)

(** C1 (as the code builds it): every row title of the matrix had at
    least 35 explicit ratings in the join before the user filter, and
    every column user has at least 10 ratings on the title-filtered rows. *)
Theorem book_pivot_thresholds (ratings_df : list Rating) (books_df : list Book) :
  let merged := merge_on_isbn (explicit_ratings ratings_df) books_df in
  (forall t, In t (pv_index (build_book_pivot ratings_df books_df)) ->
     (35 <= title_count merged t)%nat) /\
  (forall u, In u (pv_columns (build_book_pivot ratings_df books_df)) ->
     (10 <= user_count (filter_popular_books merged) u)%nat).
Proof.
  intro merged. unfold build_book_pivot, pivot_table, filtered_ratings. simpl.
  fold merged. split.
  - intros t Ht. apply In_sort_uniq_str, in_map_iff in Ht as (x & <- & Hx).
    apply filter_In in Hx as [Hx _]. apply filter_In in Hx as [_ H].
    apply Nat.leb_le. exact H.
  - intros u Hu. apply In_sort_uniq_Z, in_map_iff in Hu as (x & <- & Hx).
    apply filter_In in Hx as [_ H]. apply Nat.leb_le. exact H.
Qed.

(** C1 fails as stated: title "X" has 35 ratings, 25 of them by users who
    rate nothing else; the user filter drops those, and the row "X" of the
    matrix is left with 10 ratings. *)
Lemma book_pivot_row_below_35 :
  In "X" (pv_index (build_book_pivot one_avid_reader ten_editions)) /\
  title_count (merge_on_isbn (explicit_ratings one_avid_reader) ten_editions) "X" = 35%nat /\
  title_count (filtered_ratings one_avid_reader ten_editions) "X" = 10%nat.
Proof. vm_compute. split; [left; reflexivity | split; reflexivity]. Qed.

(** ** [recommend_books] *)

(** C2: a title that is not a row of the matrix gives the not-found
    result [(None, [])], never an exception. *)
Theorem recommend_unknown_title_not_found (book_name : string) (pv : Pivot)
    (model : NNModel) (book_info : list BookInfo) (k : Z) :
  ~ In book_name (pv_index pv) ->
  recommend_books book_name pv model book_info k = Ok (None, []).
Proof.
  intro Hn. unfold recommend_books.
  rewrite (get_loc_not_In _ _ _ str_cmp_spec _ _ Hn). reflexivity.
Qed.

Lemma recommend_unknown_title_not_found_witness :
  ~ In "unknown-title-xyz" (pv_index small_pivot) /\
  recommend_books "unknown-title-xyz" small_pivot small_model
    (build_book_info small_pivot small_books) 5 = Ok (None, []).
Proof.
  assert (H : ~ In "unknown-title-xyz" (pv_index small_pivot)).
  { simpl. intros [H | [H | H]]; discriminate || contradiction. }
  split; [exact H | apply recommend_unknown_title_not_found; exact H].
Defined.

(** *** Sorting by similarity *)

Definition sim_ge (x y : nat * Q) : Prop := snd y <= snd x.

Lemma insert_by_similarity_perm x l :
  Permutation (insert_by_similarity x l) (x :: l).
Proof.
  induction l as [|y l IH]; simpl; [reflexivity |].
  destruct (Qle_bool (snd y) (snd x)); [reflexivity |].
  rewrite IH. apply perm_swap.
Qed.

Lemma sort_by_similarity_perm l : Permutation (sort_by_similarity_desc l) l.
Proof.
  induction l as [|x l IH]; simpl; [reflexivity |].
  rewrite insert_by_similarity_perm, IH. reflexivity.
Qed.

Lemma insert_by_similarity_sorted x l :
  Sorted sim_ge l -> Sorted sim_ge (insert_by_similarity x l).
Proof.
  induction 1 as [|y l Hl IH Hhd]; simpl; [repeat constructor |].
  destruct (Qle_bool (snd y) (snd x)) eqn:E.
  - constructor; [constructor; assumption |].
    constructor. apply Qle_bool_iff. exact E.
  - assert (Hyx : snd x <= snd y).
    { apply Qlt_le_weak, Qnot_le_lt. intro H. apply Qle_bool_iff in H. congruence. }
    constructor; [exact IH |].
    destruct l as [|z l]; simpl; [constructor; exact Hyx |].
    inversion Hhd; subst.
    destruct (Qle_bool (snd z) (snd x)); constructor; assumption.
Qed.

Lemma sort_by_similarity_sorted l : Sorted sim_ge (sort_by_similarity_desc l).
Proof.
  induction l as [|x l IH]; simpl; [constructor |].
  apply insert_by_similarity_sorted. exact IH.
Qed.

Lemma sim_ge_trans x y z : sim_ge x y -> sim_ge y z -> sim_ge x z.
Proof. unfold sim_ge. intros H1 H2. eapply Qle_trans; eassumption. Qed.

Lemma StronglySorted_nth {A : Type} (R : A -> A -> Prop) (l : list A) (d : A) i j :
  StronglySorted R l -> (i < j)%nat -> (j < List.length l)%nat ->
  R (nth i l d) (nth j l d).
Proof.
  intros H. revert i j. induction H as [|a l _ IH Hall]; simpl; intros i j Hij Hj; [lia |].
  destruct j as [|j]; [lia |]. destruct i as [|i].
  - rewrite Forall_forall in Hall. apply Hall, nth_In. lia.
  - apply IH; lia.
Qed.

(** *** Slicing and the index *)

Lemma py_slice_to_firstn {A : Type} (l : list A) (k : Z) :
  exists n, py_slice_to l k = firstn n l.
Proof. unfold py_slice_to. destruct (0 <=? k)%Z; eexists; reflexivity. Qed.

Lemma py_slice_to_nonneg {A : Type} (l : list A) (k : Z) :
  (0 <= k)%Z -> py_slice_to l k = firstn (Z.to_nat k) l.
Proof. intro H. unfold py_slice_to. apply Z.leb_le in H. rewrite H. reflexivity. Qed.

Lemma kneighbors_ok (model : NNModel) (q : nat) (n : Z) :
  (0 < n)%Z -> (n <= Z.of_nat (nn_n_samples_fit model))%Z ->
  kneighbors model q (Some n) =
    Ok (map (nn_dist model q) (firstn (Z.to_nat n) (nn_order model q)),
        firstn (Z.to_nat n) (nn_order model q)).
Proof.
  intros H1 H2. unfold kneighbors.
  replace (n <=? 0)%Z with false by (symmetry; apply Z.leb_gt; lia).
  replace (Z.of_nat (nn_n_samples_fit model) <? n)%Z with false
    by (symmetry; apply Z.ltb_ge; lia).
  reflexivity.
Qed.

Lemma kneighbors_shape (model : NNModel) (q : nat) (n : option Z) dists idxs :
  kneighbors model q n = Ok (dists, idxs) ->
  (0 < match n with Some n => n | None => nn_n_neighbors model end)%Z /\
  idxs = firstn (Z.to_nat (match n with Some n => n | None => nn_n_neighbors model end))
           (nn_order model q) /\
  dists = map (nn_dist model q) idxs.
Proof.
  unfold kneighbors.
  destruct (_ <=? 0)%Z eqn:E1; [discriminate |].
  destruct (_ <? _)%Z eqn:E2; [discriminate |].
  intro H. injection H as <- <-. apply Z.leb_gt in E1. auto.
Qed.

Lemma map_fst_combine {A B : Type} (a : list A) (b : list B) :
  (List.length a <= List.length b)%nat -> map fst (combine a b) = a.
Proof.
  revert b. induction a as [|x a IH]; intros [|y b]; simpl; intro H;
    try reflexivity; try lia.
  f_equal. apply IH. lia.
Qed.

Lemma In_tl {A : Type} (x : A) l : In x (tl l) -> In x l.
Proof. destruct l; simpl; tauto. Qed.

Lemma In_firstn_l {A : Type} (x : A) n l : In x (firstn n l) -> In x l.
Proof.
  intro H. rewrite <- (firstn_skipn n l). apply in_or_app. left. exact H.
Qed.

Lemma NoDup_firstn_l {A : Type} n (l : list A) : NoDup l -> NoDup (firstn n l).
Proof.
  intro H. rewrite <- (firstn_skipn n l) in H. eapply NoDup_app_remove_r. exact H.
Qed.

Lemma NoDup_tl {A : Type} (l : list A) : NoDup l -> NoDup (tl l).
Proof. destruct l; simpl; [auto | intro H; inversion H; assumption]. Qed.

Lemma rows_from_range q n j : (q < n)%nat -> In j (rows_from q n) -> (j < n)%nat.
Proof.
  intros Hq [<- | Hj]; [exact Hq |].
  apply filter_In in Hj as [Hj _]. apply in_seq in Hj. lia.
Qed.

Lemma rows_from_NoDup q n : NoDup (rows_from q n).
Proof.
  constructor.
  - intro H. apply filter_In in H as [_ H]. rewrite Nat.eqb_refl in H. discriminate.
  - apply NoDup_filter, seq_NoDup.
Qed.

(** *** The loop that builds the recommendations *)

Lemma build_recommendations_spec index bi rank data recs :
  build_recommendations index bi rank data = Ok recs ->
  Forall (fun it => (rank <= rec_rank it)%nat /\
            exists idx s, nth_error data (rec_rank it - rank) = Some (idx, s) /\
                          nth_error index idx = Some (rec_title it)) recs /\
  StronglySorted lt (map rec_rank recs).
Proof.
  revert rank recs.
  induction data as [|[idx s] rest IH]; intros rank recs; simpl.
  - intro H. injection H as <-. split; constructor.
  - destruct (nth_error index idx) as [title|] eqn:Ei; [|discriminate].
    destruct (build_recommendations index bi (S rank) rest) as [recs'|e] eqn:Er;
      simpl; [|discriminate].
    destruct (IH (S rank) recs' Er) as [Hf Hs].
    assert (Hf' : Forall (fun it => (rank <= rec_rank it)%nat /\
              exists idx0 s0, nth_error ((idx, s) :: rest) (rec_rank it - rank) = Some (idx0, s0) /\
                              nth_error index idx0 = Some (rec_title it)) recs').
    { eapply Forall_impl; [| exact Hf]. simpl.
      intros it [Hr (i0 & s0 & Hn & Ht)]. split; [lia |].
      exists i0, s0. split; [| exact Ht].
      replace (rec_rank it - rank)%nat with (S (rec_rank it - S rank)) by lia.
      exact Hn. }
    destruct (filter _ bi) as [|r rs]; intro H; injection H as <-.
    + split; assumption.
    + split.
      * constructor; [| exact Hf']. simpl. split; [lia |].
        exists idx, s. rewrite Nat.sub_diag. split; [reflexivity | exact Ei].
      * simpl. constructor; [exact Hs |].
        apply Forall_map. eapply Forall_impl; [| exact Hf]. simpl. intros it [Hr _]. lia.
Qed.

Lemma build_recommendations_total index bi rank data :
  (forall p, In p data -> (fst p < List.length index)%nat) ->
  (forall t, In t index -> filter (fun r => String.eqb (bi_title r) t) bi <> []) ->
  exists recs, build_recommendations index bi rank data = Ok recs /\
    map rec_rank recs = seq rank (List.length data).
Proof.
  intros Hrange Hinfo. revert rank.
  induction data as [|[idx s] rest IH]; intro rank; simpl.
  - exists []. split; reflexivity.
  - assert (Hi : (idx < List.length index)%nat) by exact (Hrange (idx, s) (or_introl eq_refl)).
    apply nth_error_Some in Hi.
    destruct (nth_error index idx) as [title|] eqn:Ei; [|congruence].
    destruct (IH (fun p Hp => Hrange p (or_intror Hp)) (S rank)) as (recs & -> & Hr).
    simpl. pose proof (Hinfo title (nth_error_In _ _ Ei)) as Hne.
    destruct (filter _ bi) as [|r rs]; [congruence |].
    eexists. split; [reflexivity |]. simpl. rewrite Hr. reflexivity.
Qed.

Lemma build_recommendations_titles index bi rank data recs :
  build_recommendations index bi rank data = Ok recs ->
  NoDup (map fst data) -> NoDup index ->
  NoDup (map rec_title recs) /\ (forall it, In it recs -> In (rec_title it) index).
Proof.
  intros H Hd Hi. split.
  - revert rank recs H. induction data as [|[idx s] rest IH]; intros rank recs; simpl.
    + intro H. injection H as <-. constructor.
    + inversion Hd as [|? ? Hnotin Hd']; subst.
      destruct (nth_error index idx) as [title|] eqn:Ei; [|discriminate].
      destruct (build_recommendations index bi (S rank) rest) as [recs'|e] eqn:Er;
        simpl; [|discriminate].
      pose proof (IH Hd' _ _ Er) as Hnd.
      destruct (filter _ bi) as [|r rs]; intro H; injection H as <-; [exact Hnd |].
      simpl. constructor; [| exact Hnd].
      intro Hin. apply in_map_iff in Hin as (it & Ht & Hit).
      destruct (build_recommendations_spec _ _ _ _ _ Er) as [Hf _].
      rewrite Forall_forall in Hf. destruct (Hf it Hit) as (_ & i0 & s0 & Hn & Hti).
      apply Hnotin. rewrite Ht in Hti.
      assert (i0 = idx).
      { eapply (proj1 (NoDup_nth_error index)); [exact Hi | | congruence].
        apply nth_error_Some. congruence. }
      subst i0. apply nth_error_In in Hn. apply in_map_iff. exists (idx, s0). auto.
  - intros it Hit. destruct (build_recommendations_spec _ _ _ _ _ H) as [Hf _].
    rewrite Forall_forall in Hf. destruct (Hf it Hit) as (_ & i0 & s0 & _ & Ht).
    exact (nth_error_In _ _ Ht).
Qed.

Lemma build_book_info_covers (pv : Pivot) (books_df : list Book) t :
  In t (pv_index pv) ->
  filter (fun r => String.eqb (bi_title r) t) (build_book_info pv books_df) <> [].
Proof.
  intros Ht Hnil.
  assert (Hex : exists r, In r (build_book_info pv books_df) /\ bi_title r = t).
  { unfold build_book_info, merge_left_on_title.
    destruct (filter (fun b => String.eqb (book_title b) t) (drop_duplicates_title books_df))
      as [|b bs] eqn:Ef.
    - exists (mkBookInfo t None None). split; [| reflexivity].
      apply in_flat_map. exists t. rewrite Ef. simpl. auto.
    - exists (mkBookInfo t (book_author b) (image_url_l b)). split; [| reflexivity].
      apply in_flat_map. exists t. rewrite Ef. simpl. auto. }
  destruct Hex as (r & Hr & Htr).
  assert (In r (filter (fun r => String.eqb (bi_title r) t) (build_book_info pv books_df))).
  { apply filter_In. split; [exact Hr | apply String.eqb_eq; exact Htr]. }
  rewrite Hnil in H. exact H.
Qed.

(** *** Unfolding [recommend_books] *)

Lemma recommend_books_found book_name pv model bi k q answer :
  get_loc str_cmp book_name (pv_index pv) = Some q ->
  kneighbors model q (Some (k + 1)%Z) = Ok answer ->
  recommend_books book_name pv model bi k =
    (recs <- build_recommendations (pv_index pv) bi 1
               (py_slice_to (recommendation_data answer) k) ;;
     Ok (Some ("Recommendations for '" ++ book_name ++ "'"), recs)).
Proof. intros Hq Hk. unfold recommend_books. rewrite Hq, Hk. reflexivity. Qed.

Lemma recommendation_data_perm (answer : list Q * list nat) :
  Permutation (recommendation_data answer)
    (combine (tl (snd answer)) (map (fun d => 1 - d) (tl (fst answer)))).
Proof. apply sort_by_similarity_perm. Qed.

Lemma recommendation_data_indices model q n dists idxs :
  kneighbors model q n = Ok (dists, idxs) ->
  Permutation (map fst (recommendation_data (dists, idxs))) (tl idxs).
Proof.
  intro H. apply kneighbors_shape in H as (_ & _ & ->).
  rewrite (Permutation_map fst (recommendation_data_perm _)). simpl.
  rewrite map_fst_combine; [reflexivity |].
  destruct idxs; simpl; [lia | rewrite !length_map; lia].
Qed.

Lemma nth_error_firstn_Some {A : Type} (l : list A) n i x :
  nth_error (firstn n l) i = Some x -> nth_error l i = Some x.
Proof.
  revert l i. induction n as [|n IH]; intros [|a l] [|i]; simpl; try discriminate; auto.
Qed.

Lemma similarities_by_rank (data : list (nat * Q)) (items : list Recommendation) :
  StronglySorted sim_ge data ->
  Forall (fun it => (1 <= rec_rank it)%nat /\ (pred (rec_rank it) < List.length data)%nat) items ->
  StronglySorted lt (map rec_rank items) ->
  Sorted (fun a b => b <= a) (map (fun it => snd (nth (pred (rec_rank it)) data (0%nat, 0))) items).
Proof.
  intros Hd Hf Hs. apply StronglySorted_Sorted.
  induction items as [|it items IH]; simpl; constructor.
  - inversion Hf; inversion Hs; subst. apply IH; assumption.
  - inversion Hf as [|? ? [H1 H2] Hf']; inversion Hs as [|? ? Hs' Hlt]; subst.
    apply Forall_map. rewrite Forall_forall in Hf', Hlt |- *.
    intros it' Hit'. destruct (Hf' it' Hit') as [H1' H2'].
    assert (rec_rank it < rec_rank it')%nat by (apply Hlt, in_map; exact Hit').
    apply (StronglySorted_nth sim_ge data (0%nat, 0)); [exact Hd | lia | exact H2'].
Qed.

(** C3 fails as stated: for a title of a two-row matrix, [k = 5] asks the
    index for 6 neighbours and scikit-learn raises [ValueError]. *)
Lemma recommend_raises_when_k_exceeds_rows :
  In "A" (pv_index small_pivot) /\
  recommend_books "A" small_pivot small_model (build_book_info small_pivot small_books) 5
    = Err ValueError.
Proof. split; [simpl; auto | reflexivity]. Qed.

(** C3 (as the code behaves): for a title of the matrix and [0 <= k]
    with [k + 1] at most the number of rows, [recommend_books] returns a
    list of at most [k] items ranked [1 .. len(items)]; for [k < 0] or
    [k + 1] above the number of rows, the index call raises [ValueError]
    and so does [recommend_books]. *)
Theorem recommend_ranks_contiguous (book_name : string) (pv : Pivot)
    (order : nat -> list nat) (dist : nat -> nat -> Q) (books_df : list Book) (k : Z) :
  In book_name (pv_index pv) ->
  ((0 <= k)%Z ->
   (k + 1 <= Z.of_nat (List.length (pv_index pv)))%Z ->
   (forall q j, (q < List.length (pv_index pv))%nat -> In j (order q) ->
      (j < List.length (pv_index pv))%nat) ->
   exists items,
     recommend_books book_name pv (fit_nearest_neighbors 20 pv order dist)
       (build_book_info pv books_df) k
       = Ok (Some ("Recommendations for '" ++ book_name ++ "'"), items) /\
     (List.length items <= Z.to_nat k)%nat /\
     map rec_rank items = seq 1 (List.length items)) /\
  ((k < 0)%Z \/ (Z.of_nat (List.length (pv_index pv)) < k + 1)%Z ->
   recommend_books book_name pv (fit_nearest_neighbors 20 pv order dist)
     (build_book_info pv books_df) k = Err ValueError).
Proof.
  intro Hin.
  destruct (get_loc_In _ _ _ str_cmp_spec str_lt_irrefl _ _ Hin) as (q & Hq & Hq').
  split; cycle 1.
  { intro Hk. unfold recommend_books. rewrite Hq. unfold kneighbors.
    cbv beta iota zeta delta [fit_nearest_neighbors nn_n_samples_fit].
    destruct ((k + 1 <=? 0)%Z) eqn:E1; [reflexivity |].
    replace ((Z.of_nat (List.length (pv_index pv)) <? k + 1)%Z) with true; [reflexivity |].
    symmetry. apply Z.ltb_lt. apply Z.leb_gt in E1. lia. }
  intros Hk Hn Hord.
  set (model := fit_nearest_neighbors 20 pv order dist).
  assert (Hkn : kneighbors model q (Some (k + 1)%Z) =
                Ok (map (nn_dist model q) (firstn (Z.to_nat (k + 1)) (nn_order model q)),
                    firstn (Z.to_nat (k + 1)) (nn_order model q)))
    by (apply kneighbors_ok; simpl; lia).
  rewrite (recommend_books_found _ _ _ _ _ _ _ Hq Hkn).
  rewrite py_slice_to_nonneg by exact Hk.
  set (data := recommendation_data _).
  destruct (build_recommendations_total (pv_index pv) (build_book_info pv books_df) 1
              (firstn (Z.to_nat k) data)) as (recs & Hrecs & Hranks).
  { intros p Hp. apply In_firstn_l in Hp.
    assert (Hfst : In (fst p) (map fst data)) by (apply in_map; exact Hp).
    unfold data in Hfst. rewrite (recommendation_data_indices _ _ _ _ _ Hkn) in Hfst.
    apply In_tl, In_firstn_l in Hfst. apply (Hord q (fst p)); [| exact Hfst].
    apply nth_error_Some. rewrite Hq'. discriminate. }
  { intros t Ht. apply build_book_info_covers. exact Ht. }
  rewrite Hrecs. simpl. exists recs. split; [reflexivity |].
  assert (Hlen : List.length recs = List.length (firstn (Z.to_nat k) data)).
  { rewrite <- (length_map rec_rank recs), Hranks. apply length_seq. }
  split.
  - rewrite Hlen, length_firstn. lia.
  - rewrite Hranks, Hlen. reflexivity.
Qed.



Lemma recommend_ranks_contiguous_witness :
  (exists items,
    recommend_books "t03" pivot30 (fit_nearest_neighbors 20 pivot30 (nn_order model30) (nn_dist model30))
      (build_book_info pivot30 books30) 5
      = Ok (Some ("Recommendations for '" ++ "t03" ++ "'"), items) /\
    (List.length items <= Z.to_nat 5)%nat /\
    map rec_rank items = seq 1 (List.length items)) /\
  recommend_books "t03" pivot30 (fit_nearest_neighbors 20 pivot30 (nn_order model30) (nn_dist model30))
    (build_book_info pivot30 books30) 30 = Err ValueError.
Proof.
  assert (Hl : List.length (pv_index pivot30) = 30%nat) by (vm_compute; reflexivity).
  assert (H1 : In "t03" (pv_index pivot30)) by (vm_compute; tauto).
  assert (H2 : (0 <= 5)%Z) by lia.
  assert (H3 : (5 + 1 <= Z.of_nat (List.length (pv_index pivot30)))%Z) by (rewrite Hl; lia).
  assert (H4 : forall q j, (q < List.length (pv_index pivot30))%nat -> In j (nn_order model30 q) ->
                 (j < List.length (pv_index pivot30))%nat).
  { rewrite Hl. intros q j. apply rows_from_range. }
  assert (H5 : (30 < 0)%Z \/ (Z.of_nat (List.length (pv_index pivot30)) < 30 + 1)%Z)
    by (right; rewrite Hl; lia).
  split.
  - exact (proj1 (recommend_ranks_contiguous "t03" pivot30 (nn_order model30) (nn_dist model30)
                    books30 5 H1) H2 H3 H4).
  - exact (proj2 (recommend_ranks_contiguous "t03" pivot30 (nn_order model30) (nn_dist model30)
                    books30 30 H1) H5).
Defined.

(** C4: the similarities are [1 - d] for the neighbours kept after the
    first one, each returned item of rank [r] is the [r]-th entry of the
    sorted list, and the similarities read in rank order never increase. *)
Theorem recommend_similarity_nonincreasing (book_name : string) (pv : Pivot)
    (model : NNModel) (bi : list BookInfo) (k : Z) (q : nat)
    (answer : list Q * list nat) (msg : option string) (items : list Recommendation) :
  get_loc str_cmp book_name (pv_index pv) = Some q ->
  kneighbors model q (Some (k + 1)%Z) = Ok answer ->
  recommend_books book_name pv model bi k = Ok (msg, items) ->
  Permutation (recommendation_data answer)
    (combine (tl (snd answer)) (map (fun d => 1 - d) (tl (fst answer)))) /\
  (forall it, In it items ->
     exists idx s, nth_error (recommendation_data answer) (pred (rec_rank it)) = Some (idx, s) /\
                   nth_error (pv_index pv) idx = Some (rec_title it)) /\
  Sorted (fun a b => b <= a)
    (map (fun it => snd (nth (pred (rec_rank it)) (recommendation_data answer) (0%nat, 0))) items).
Proof.
  intros Hq Hk Hr.
  rewrite (recommend_books_found _ _ _ _ _ _ _ Hq Hk) in Hr.
  destruct (py_slice_to_firstn (recommendation_data answer) k) as [n Hn].
  rewrite Hn in Hr.
  destruct (build_recommendations _ _ _ _) as [recs|e] eqn:Eb; simpl in Hr; [|discriminate].
  injection Hr as _ <-.
  destruct (build_recommendations_spec _ _ _ _ _ Eb) as [Hf Hs].
  assert (Hf' : Forall (fun it => (1 <= rec_rank it)%nat /\
              exists idx s, nth_error (recommendation_data answer) (pred (rec_rank it)) = Some (idx, s) /\
                            nth_error (pv_index pv) idx = Some (rec_title it)) recs).
  { eapply Forall_impl; [| exact Hf]. simpl. intros it [H1 (idx & s & Hn' & Ht)].
    split; [exact H1 |]. exists idx, s. split; [| exact Ht].
    rewrite <- Nat.sub_1_r. eapply nth_error_firstn_Some. exact Hn'. }
  split; [apply recommendation_data_perm |]. split.
  - intros it Hit. rewrite Forall_forall in Hf'. apply (Hf' it Hit).
  - apply similarities_by_rank; [| | exact Hs].
    + apply Sorted_StronglySorted; [exact sim_ge_trans | apply sort_by_similarity_sorted].
    + eapply Forall_impl; [| exact Hf']. simpl. intros it [H1 (idx & s & Hn' & _)].
      split; [exact H1 |]. apply nth_error_Some. congruence.
Qed.

Lemma recommend_similarity_nonincreasing_witness :
  exists msg items,
    recommend_books "A" tie_pivot tie_model (build_book_info tie_pivot tie_books) 2 = Ok (msg, items) /\
    Permutation (recommendation_data ([0; 0; 1], [1; 0; 2]%nat))
      (combine (tl [1; 0; 2]%nat) (map (fun d => 1 - d) (tl [0; 0; 1]))) /\
    (forall it, In it items ->
       exists idx s, nth_error (recommendation_data ([0; 0; 1], [1; 0; 2]%nat)) (pred (rec_rank it)) = Some (idx, s) /\
                     nth_error (pv_index tie_pivot) idx = Some (rec_title it)) /\
    Sorted (fun a b => b <= a)
      (map (fun it => snd (nth (pred (rec_rank it)) (recommendation_data ([0; 0; 1], [1; 0; 2]%nat)) (0%nat, 0))) items).
Proof.
  assert (Hq : get_loc str_cmp "A" (pv_index tie_pivot) = Some 0%nat) by reflexivity.
  assert (Hk : kneighbors tie_model 0 (Some (2 + 1)%Z) = Ok ([0; 0; 1], [1; 0; 2]%nat)) by reflexivity.
  assert (Hr : recommend_books "A" tie_pivot tie_model (build_book_info tie_pivot tie_books) 2 =
               Ok (Some "Recommendations for 'A'",
                   [mkRecommendation "A" "Ann" "No Image" 1; mkRecommendation "C" "Cy" "No Image" 2]))
    by reflexivity.
  exists (Some "Recommendations for 'A'"),
         [mkRecommendation "A" "Ann" "No Image" 1; mkRecommendation "C" "Cy" "No Image" 2].
  split; [exact Hr |].
  exact (recommend_similarity_nonincreasing "A" tie_pivot tie_model _ 2 0 _ _ _ Hq Hk Hr).
Defined.

(** C5: the first entry of the index's answer is dropped by position: the
    rows kept are exactly the tail of the answer, and every returned title
    is the title of one of those rows, whether or not the query row is
    among them. *)
Theorem recommend_drops_first_neighbor (book_name : string) (pv : Pivot)
    (model : NNModel) (bi : list BookInfo) (k : Z) (q : nat)
    (dists : list Q) (idxs : list nat) (msg : option string) (items : list Recommendation) :
  get_loc str_cmp book_name (pv_index pv) = Some q ->
  kneighbors model q (Some (k + 1)%Z) = Ok (dists, idxs) ->
  recommend_books book_name pv model bi k = Ok (msg, items) ->
  Permutation (map fst (recommendation_data (dists, idxs))) (tl idxs) /\
  (forall it, In it items ->
     exists j, In j (tl idxs) /\ nth_error (pv_index pv) j = Some (rec_title it)).
Proof.
  intros Hq Hk Hr.
  pose proof (recommendation_data_indices _ _ _ _ _ Hk) as Hperm.
  split; [exact Hperm |].
  rewrite (recommend_books_found _ _ _ _ _ _ _ Hq Hk) in Hr.
  destruct (py_slice_to_firstn (recommendation_data (dists, idxs)) k) as [n Hn].
  rewrite Hn in Hr.
  destruct (build_recommendations _ _ _ _) as [recs|e] eqn:Eb; simpl in Hr; [|discriminate].
  injection Hr as _ <-.
  intros it Hit. destruct (build_recommendations_spec _ _ _ _ _ Eb) as [Hf _].
  rewrite Forall_forall in Hf. destruct (Hf it Hit) as (_ & idx & s & Hn' & Ht).
  exists idx. split; [| exact Ht].
  apply (Permutation_in _ Hperm). apply in_map_iff. exists (idx, s). split; [reflexivity |].
  apply nth_error_In in Hn'. eapply In_firstn_l. exact Hn'.
Qed.

(** The index ranks "B" before "A" for the query "A" (both at distance 0):
    "B" is dropped and "A" is recommended for itself. *)
Lemma recommend_drops_first_neighbor_witness :
  exists items,
    recommend_books "A" tie_pivot tie_model (build_book_info tie_pivot tie_books) 2
      = Ok (Some "Recommendations for 'A'", items) /\
    map rec_title items = ["A"; "C"] /\
    Permutation (map fst (recommendation_data ([0; 0; 1], [1; 0; 2]%nat))) [0; 2]%nat /\
    (forall it, In it items ->
       exists j, In j [0; 2]%nat /\ nth_error (pv_index tie_pivot) j = Some (rec_title it)).
Proof.
  assert (Hq : get_loc str_cmp "A" (pv_index tie_pivot) = Some 0%nat) by reflexivity.
  assert (Hk : kneighbors tie_model 0 (Some (2 + 1)%Z) = Ok ([0; 0; 1], [1; 0; 2]%nat)) by reflexivity.
  assert (Hr : recommend_books "A" tie_pivot tie_model (build_book_info tie_pivot tie_books) 2 =
               Ok (Some "Recommendations for 'A'",
                   [mkRecommendation "A" "Ann" "No Image" 1; mkRecommendation "C" "Cy" "No Image" 2]))
    by reflexivity.
  exists [mkRecommendation "A" "Ann" "No Image" 1; mkRecommendation "C" "Cy" "No Image" 2].
  split; [exact Hr |]. split; [reflexivity |].
  exact (recommend_drops_first_neighbor "A" tie_pivot tie_model _ 2 0 _ _ _ _ Hq Hk Hr).
Defined.

(** C6 fails as stated: the index is built with [n_neighbors=20], but
    [recommend_books] passes [n_neighbors = k + 1], so 25 recommendations
    come back for [k = 25], more than the 19 a fan-out of 20 could leave. *)
Lemma recommend_fanout_not_20 :
  nn_n_neighbors model30 = 20%Z /\
  (exists dists idxs, kneighbors model30 3 None = Ok (dists, idxs) /\ List.length idxs = 20%nat) /\
  (exists msg items,
     recommend_books "t03" pivot30 model30 (build_book_info pivot30 books30) 25 = Ok (msg, items) /\
     List.length items = 25%nat).
Proof.
  split; [reflexivity |]. split.
  - remember (kneighbors model30 3 None) as r eqn:E. vm_compute in E. subst r.
    do 2 eexists. split; reflexivity.
  - remember (recommend_books "t03" pivot30 model30 (build_book_info pivot30 books30) 25) as r eqn:E.
    vm_compute in E. subst r. do 2 eexists. split; reflexivity.
Qed.

(** C6 (as the code behaves): the answer used by [recommend_books] is the
    index queried with [n_neighbors = k + 1], whatever default the index
    was built with; it holds [k + 1] rows, of which [k] remain after the
    first is dropped, and those [k] are ranked. *)
Theorem recommend_fanout_k_plus_1 (book_name : string) (pv : Pivot) (model : NNModel)
    (bi : list BookInfo) (k : Z) (q : nat) :
  get_loc str_cmp book_name (pv_index pv) = Some q ->
  (0 <= k)%Z ->
  (k + 1 <= Z.of_nat (nn_n_samples_fit model))%Z ->
  (Z.to_nat (k + 1) <= List.length (nn_order model q))%nat ->
  (forall d, recommend_books book_name pv
               (mkNNModel d (nn_n_samples_fit model) (nn_order model) (nn_dist model)) bi k
             = recommend_books book_name pv model bi k) /\
  exists dists idxs,
    kneighbors model q (Some (k + 1)%Z) = Ok (dists, idxs) /\
    List.length idxs = Z.to_nat (k + 1) /\
    List.length (py_slice_to (recommendation_data (dists, idxs)) k) = Z.to_nat k /\
    recommend_books book_name pv model bi k =
      (recs <- build_recommendations (pv_index pv) bi 1
                 (py_slice_to (recommendation_data (dists, idxs)) k) ;;
       Ok (Some ("Recommendations for '" ++ book_name ++ "'"), recs)).
Proof.
  intros Hq Hk Hn Hord. split.
  - intro d. unfold recommend_books, kneighbors. reflexivity.
  - assert (Hkn := kneighbors_ok model q (k + 1) ltac:(lia) Hn).
    do 2 eexists. split; [exact Hkn |].
    assert (Hlen : List.length (firstn (Z.to_nat (k + 1)) (nn_order model q)) = Z.to_nat (k + 1)).
    { rewrite length_firstn. lia. }
    split; [exact Hlen |]. split.
    + rewrite py_slice_to_nonneg by exact Hk. rewrite length_firstn.
      rewrite (Permutation_length (recommendation_data_perm _)). simpl.
      rewrite length_combine, length_map.
      destruct (firstn (Z.to_nat (k + 1)) (nn_order model q)) as [|x l] eqn:E;
        simpl in Hlen |- *; [lia |].
      rewrite length_map. lia.
    + exact (recommend_books_found _ _ _ _ _ _ _ Hq Hkn).
Qed.

Lemma recommend_fanout_k_plus_1_witness :
  get_loc str_cmp "t03" (pv_index pivot30) = Some 3%nat /\
  ((forall d, recommend_books "t03" pivot30
               (mkNNModel d (nn_n_samples_fit model30) (nn_order model30) (nn_dist model30))
               (build_book_info pivot30 books30) 5
             = recommend_books "t03" pivot30 model30 (build_book_info pivot30 books30) 5) /\
   exists dists idxs,
    kneighbors model30 3 (Some (5 + 1)%Z) = Ok (dists, idxs) /\
    List.length idxs = Z.to_nat (5 + 1) /\
    List.length (py_slice_to (recommendation_data (dists, idxs)) 5) = Z.to_nat 5 /\
    recommend_books "t03" pivot30 model30 (build_book_info pivot30 books30) 5 =
      (recs <- build_recommendations (pv_index pivot30) (build_book_info pivot30 books30) 1
                 (py_slice_to (recommendation_data (dists, idxs)) 5) ;;
       Ok (Some ("Recommendations for '" ++ "t03" ++ "'"), recs))).
Proof.
  assert (Hq : get_loc str_cmp "t03" (pv_index pivot30) = Some 3%nat) by (vm_compute; reflexivity).
  assert (Hn : (5 + 1 <= Z.of_nat (nn_n_samples_fit model30))%Z) by (vm_compute; discriminate).
  assert (Ho : (Z.to_nat (5 + 1) <= List.length (nn_order model30 3))%nat)
    by (apply Nat.leb_le; vm_compute; reflexivity).
  split; [exact Hq |].
  exact (recommend_fanout_k_plus_1 "t03" pivot30 model30 _ 5 3 Hq ltac:(lia) Hn Ho).
Defined.

(** C10: for a matrix built by the code and an index whose answer lists
    distinct rows, every recommended title is a row of the matrix and no
    title is recommended twice. *)
Theorem recommend_titles_distinct_rows (ratings_df : list Rating) (books_df : list Book)
    (order : nat -> list nat) (dist : nat -> nat -> Q) (bi : list BookInfo)
    (book_name : string) (k : Z) (msg : option string) (items : list Recommendation) :
  (forall q, NoDup (order q)) ->
  recommend_books book_name (build_book_pivot ratings_df books_df)
    (fit_nearest_neighbors 20 (build_book_pivot ratings_df books_df) order dist) bi k
    = Ok (msg, items) ->
  (forall it, In it items -> In (rec_title it) (pv_index (build_book_pivot ratings_df books_df))) /\
  NoDup (map rec_title items).
Proof.
  intros Hord Hr. set (pv := build_book_pivot ratings_df books_df) in *.
  set (model := fit_nearest_neighbors 20 pv order dist) in *.
  destruct (get_loc str_cmp book_name (pv_index pv)) as [q|] eqn:Hq.
  2:{ unfold recommend_books in Hr. rewrite Hq in Hr. injection Hr as _ <-.
      split; [intros it [] | constructor]. }
  destruct (kneighbors model q (Some (k + 1)%Z)) as [[dists idxs]|e] eqn:Hk.
  2:{ unfold recommend_books in Hr. rewrite Hq, Hk in Hr. discriminate. }
  rewrite (recommend_books_found _ _ _ _ _ _ _ Hq Hk) in Hr.
  destruct (py_slice_to_firstn (recommendation_data (dists, idxs)) k) as [n Hn].
  rewrite Hn in Hr.
  destruct (build_recommendations _ _ _ _) as [recs|e] eqn:Eb; simpl in Hr; [|discriminate].
  injection Hr as _ <-.
  assert (Hidx : NoDup (map fst (firstn n (recommendation_data (dists, idxs))))).
  { rewrite <- firstn_map. apply NoDup_firstn_l.
    apply (Permutation_NoDup (Permutation_sym (recommendation_data_indices _ _ _ _ _ Hk))).
    apply kneighbors_shape in Hk as (_ & -> & _).
    apply NoDup_tl, NoDup_firstn_l, Hord. }
  destruct (build_recommendations_titles _ _ _ _ _ Eb Hidx) as [Hnd Hin];
    [apply sort_uniq_str_NoDup |].
  split; assumption.
Qed.

Lemma recommend_titles_distinct_rows_witness :
  exists msg items,
    recommend_books "t01" (build_book_pivot ten_readers three_titles_books)
      (fit_nearest_neighbors 20 (build_book_pivot ten_readers three_titles_books)
         three_titles_order (fun _ _ => 0))
      (build_book_info (build_book_pivot ten_readers three_titles_books) three_titles_books) 2
      = Ok (msg, items) /\
    List.length items = 2%nat /\
    (forall it, In it items -> In (rec_title it) (pv_index (build_book_pivot ten_readers three_titles_books))) /\
    NoDup (map rec_title items).
Proof.
  remember (recommend_books "t01" (build_book_pivot ten_readers three_titles_books)
      (fit_nearest_neighbors 20 (build_book_pivot ten_readers three_titles_books)
         three_titles_order (fun _ _ => 0))
      (build_book_info (build_book_pivot ten_readers three_titles_books) three_titles_books) 2) as r eqn:E.
  pose proof E as E'. vm_compute in E. subst r.
  do 2 eexists. split; [reflexivity |]. split; [reflexivity |].
  exact (recommend_titles_distinct_rows ten_readers three_titles_books three_titles_order
           (fun _ _ => 0) _ "t01" 2 _ _ (fun q => rows_from_NoDup q 3) (eq_sym E')).
Defined.

(** ** [get_top_20_books] *)

Definition count_ge (x y : TopBook) : Prop := (tb_num_ratings y <= tb_num_ratings x)%nat.

Lemma insert_by_num_ratings_perm x l :
  Permutation (insert_by_num_ratings x l) (x :: l).
Proof.
  induction l as [|y l IH]; simpl; [reflexivity |].
  destruct (tb_num_ratings y <=? tb_num_ratings x)%nat; [reflexivity |].
  rewrite IH. apply perm_swap.
Qed.

Lemma sort_by_num_ratings_perm l : Permutation (sort_by_num_ratings_desc l) l.
Proof.
  induction l as [|x l IH]; simpl; [reflexivity |].
  rewrite insert_by_num_ratings_perm, IH. reflexivity.
Qed.

Lemma insert_by_num_ratings_sorted x l :
  Sorted count_ge l -> Sorted count_ge (insert_by_num_ratings x l).
Proof.
  unfold count_ge.
  induction 1 as [|y l Hl IH Hhd]; simpl; [repeat constructor |].
  destruct (tb_num_ratings y <=? tb_num_ratings x)%nat eqn:E.
  - apply Nat.leb_le in E. constructor; [constructor; assumption | constructor; exact E].
  - apply Nat.leb_gt in E. constructor; [exact IH |].
    destruct l as [|z l]; simpl; [constructor; lia |].
    inversion Hhd; subst.
    destruct (tb_num_ratings z <=? tb_num_ratings x)%nat; constructor; lia.
Qed.

Lemma sort_by_num_ratings_sorted l : Sorted count_ge (sort_by_num_ratings_desc l).
Proof.
  induction l as [|x l IH]; simpl; [constructor |].
  apply insert_by_num_ratings_sorted. exact IH.
Qed.

Lemma first_valid_const (l : list (option string)) (v : option string) :
  (forall y, In y l -> y = v) -> l <> [] -> first_valid l = v.
Proof.
  induction l as [|y l IH]; intros Hall Hne; [congruence |].
  rewrite (Hall y (or_introl eq_refl)). destruct v as [s|]; simpl; [reflexivity |].
  destruct l as [|y' l]; [reflexivity |].
  apply IH; [intros z Hz; apply Hall; right; exact Hz | discriminate].
Qed.

Lemma drop_duplicates_title_from_first seen bs b :
  In b (drop_duplicates_title_from seen bs) ->
  ~ In (book_title b) seen /\
  find (fun b' => String.eqb (book_title b') (book_title b)) bs = Some b.
Proof.
  revert seen. induction bs as [|b0 bs IH]; intro seen; simpl; [contradiction |].
  destruct (existsb (String.eqb (book_title b0)) seen) eqn:E.
  - intro Hin. destruct (IH seen Hin) as [Hns Hf]. split; [exact Hns |].
    apply existsb_exists in E as (t & Ht & Heq). apply String.eqb_eq in Heq.
    destruct (String.eqb (book_title b0) (book_title b)) eqn:E2; [|exact Hf].
    apply String.eqb_eq in E2. exfalso. apply Hns. rewrite <- E2, Heq. exact Ht.
  - intros [<- | Hin].
    + split; [| rewrite String.eqb_refl; reflexivity].
      intro Hs. assert (existsb (String.eqb (book_title b0)) seen = true).
      { apply existsb_exists. exists (book_title b0). split; [exact Hs | apply String.eqb_refl]. }
      congruence.
    + destruct (IH _ Hin) as [Hns Hf]. split; [intro; apply Hns; right; assumption |].
      destruct (String.eqb (book_title b0) (book_title b)) eqn:E2; [|exact Hf].
      apply String.eqb_eq in E2. exfalso. apply Hns. left. exact E2.
Qed.

Lemma In_merge_on_isbn x rs bs :
  In x (merge_on_isbn rs bs) ->
  exists r b, In r rs /\ In b bs /\ isbn b = r_isbn r /\
    x = mkRatedBook (r_user r) (r_isbn r) (r_rating r) (book_title b) (book_author b) (image_url_l b).
Proof.
  unfold merge_on_isbn. intro H. apply in_flat_map in H as (r & Hr & H).
  apply in_map_iff in H as (b & <- & Hb). apply filter_In in Hb as [Hb Heq].
  apply String.eqb_eq in Heq. exists r, b. auto.
Qed.

Lemma merged_group_from_first_book ratings_df books_df t x :
  In x (merge_on_isbn ratings_df (drop_duplicates_title books_df)) -> rb_title x = t ->
  exists b, find (fun b => String.eqb (book_title b) t) books_df = Some b /\
    rb_author x = book_author b /\ rb_image x = image_url_l b.
Proof.
  intros Hx Ht. apply In_merge_on_isbn in Hx as (r & b & _ & Hb & _ & ->).
  simpl in Ht. subst t. exists b.
  destruct (drop_duplicates_title_from_first [] books_df b Hb) as [_ Hf].
  split; [exact Hf | split; reflexivity].
Qed.

(** C7 fails as stated.  First, for two titles with one rating each, "B"
    rated first, the page lists "A" first: groups enter the sort in title
    order.  Second, "A" has two editions with one rating each: the join
    counts 2, the page counts 1, as it joins with the title-deduplicated
    book table. *)
Lemma top_books_not_encounter_order :
  map rb_title (merge_on_isbn (explicit_ratings tied_titles_ratings) two_titles_books) = ["B"; "A"] /\
  map (fun tb => (tb_title tb, tb_num_ratings tb)) (top_books_page tied_titles_ratings two_titles_books)
    = [("A", 1%nat); ("B", 1%nat)] /\
  title_count (merge_on_isbn (explicit_ratings two_titles_ratings) two_titles_books) "A" = 2%nat /\
  map (fun tb => (tb_title tb, tb_num_ratings tb)) (top_books_page two_titles_ratings two_titles_books)
    = [("A", 1%nat); ("B", 1%nat)].
Proof. vm_compute. repeat split. Qed.

(** C7 (as the code behaves): the page is the first 20 rows of the
    per-title groups of the explicit ratings joined with the
    title-deduplicated books, sorted by count, largest first; a row's count
    is the number of ratings of its title in that join, and its author and
    image are those of the first book row of the title. *)
Theorem top_books_page_spec (ratings_df : list Rating) (books_df : list Book) :
  let merged := merge_on_isbn (explicit_ratings ratings_df) (drop_duplicates_title books_df) in
  exists sorted,
    Permutation sorted (map (agg_group merged) (sort_uniq str_cmp (map rb_title merged))) /\
    Sorted (fun x y => tb_num_ratings y <= tb_num_ratings x)%nat sorted /\
    top_books_page ratings_df books_df = firstn 20 sorted /\
    (forall tb, In tb sorted ->
       tb_num_ratings tb = title_count merged (tb_title tb) /\
       exists b, find (fun b => String.eqb (book_title b) (tb_title tb)) books_df = Some b /\
         tb_author tb = book_author b /\ tb_image tb = image_url_l b).
Proof.
  intro merged.
  exists (sort_by_num_ratings_desc (map (agg_group merged) (sort_uniq str_cmp (map rb_title merged)))).
  split; [apply sort_by_num_ratings_perm |].
  split; [apply sort_by_num_ratings_sorted |].
  split; [reflexivity |].
  intros tb Htb. apply (Permutation_in _ (sort_by_num_ratings_perm _)) in Htb.
  apply in_map_iff in Htb as (t & <- & Ht).
  apply In_sort_uniq_str, in_map_iff in Ht as (x & Hxt & Hx).
  split; [reflexivity |]. simpl.
  destruct (merged_group_from_first_book _ _ _ _ Hx Hxt) as (b & Hf & _).
  exists b. split; [exact Hf |].
  assert (Hgrp : forall y, In y (filter (fun x => String.eqb (rb_title x) t) merged) ->
                   rb_author y = book_author b /\ rb_image y = image_url_l b).
  { intros y Hy. apply filter_In in Hy as [Hy Hyt]. apply String.eqb_eq in Hyt.
    destruct (merged_group_from_first_book _ _ _ _ Hy Hyt) as (b' & Hf' & Ha & Hi).
    rewrite Hf in Hf'. injection Hf' as <-. auto. }
  assert (Hne : filter (fun x => String.eqb (rb_title x) t) merged <> []).
  { intro Hnil. assert (Hin : In x (filter (fun x => String.eqb (rb_title x) t) merged)).
    { apply filter_In. split; [exact Hx | apply String.eqb_eq; exact Hxt]. }
    rewrite Hnil in Hin. exact Hin. }
  split; apply first_valid_const.
  - intros y Hy. apply in_map_iff in Hy as (z & <- & Hz). apply (Hgrp z Hz).
  - intro H. apply map_eq_nil in H. exact (Hne H).
  - intros y Hy. apply in_map_iff in Hy as (z & <- & Hz). apply (Hgrp z Hz).
  - intro H. apply map_eq_nil in H. exact (Hne H).
Qed.

(** ** Persisting the artifacts *)

Lemma fs_run_write_chunks fs p acc cs :
  fs p = Some acc ->
  fs_run fs (map (WriteChunk p) cs) p = Some (acc ++ List.concat cs)%list /\
  (forall p', p' <> p -> fs_run fs (map (WriteChunk p) cs) p' = fs p').
Proof.
  revert fs acc. induction cs as [|c cs IH]; intros fs acc Hp; simpl.
  - rewrite app_nil_r. auto.
  - unfold fs_run in *. cbn [map fold_left List.concat].
    assert (Hp' : fs_step fs (WriteChunk p c) p = Some (acc ++ c)%list).
    { simpl. unfold fs_set. rewrite String.eqb_refl, Hp. reflexivity. }
    destruct (IH _ _ Hp') as [H1 H2]. rewrite app_assoc. split; [exact H1 |].
    intros p' Hne. transitivity (fs_step fs (WriteChunk p c) p'); [exact (H2 p' Hne) |].
    cbn [fs_step]. unfold fs_set.
    apply String.eqb_neq in Hne. rewrite Hne. reflexivity.
Qed.

Lemma fs_run_dump_prefix fs p blob j :
  fs_run fs (OpenTruncate p :: map (WriteChunk p) (firstn j blob)) p = Some (List.concat (firstn j blob)) /\
  (forall p', p' <> p ->
     fs_run fs (OpenTruncate p :: map (WriteChunk p) (firstn j blob)) p' = fs p').
Proof.
  unfold fs_run. simpl.
  assert (H0 : fs_set fs p (Some []) p = Some []) by (unfold fs_set; rewrite String.eqb_refl; reflexivity).
  destruct (fs_run_write_chunks _ _ _ (firstn j blob) H0) as [H1 H2].
  split; [exact H1 |].
  intros p' Hne. unfold fs_run in H2. rewrite (H2 p' Hne). unfold fs_set.
  apply String.eqb_neq in Hne. rewrite Hne. reflexivity.
Qed.

(** C9 fails as stated: no operation of the save is a rename; the
    matrix file is truncated and rewritten in place, so a crash after its
    first chunk leaves a file at the final path that is neither the old
    artifact nor the new one, and the next start loads the cache since
    both files exist. *)
Lemma save_artifacts_not_atomic :
  (forall src dst, ~ In (Rename src dst) (save_artifacts [[1]; [2]]%nat [[3]]%nat)) /\
  fs_run earlier_build_fs (firstn 2 (save_artifacts [[1]; [2]]%nat [[3]]%nat)) book_pivot_path = Some [1%nat] /\
  earlier_build_fs book_pivot_path = Some [7%nat] /\
  List.concat [[1]; [2]]%nat = [1; 2]%nat /\
  loads_cached_artifacts (fs_run earlier_build_fs (firstn 2 (save_artifacts [[1]; [2]]%nat [[3]]%nat))) = true.
Proof.
  split.
  - intros src dst H. simpl in H. repeat destruct H as [H | H]; try discriminate; contradiction.
  - vm_compute. repeat split.
Qed.

(** C9 (as the code behaves): the save writes each artifact in place at
    its final path, with no temporary file and no rename; while the matrix
    is being written its final path holds the chunks written so far, and
    the index file of an earlier build is still there, so a start at that
    point takes the load branch. *)
Theorem save_artifacts_in_place (pivot_blob model_blob : list (list nat)) :
  Forall (fun op => match op with
                    | OpenTruncate p | WriteChunk p _ => p = book_pivot_path \/ p = model_knn_path
                    | Rename _ _ => False
                    end) (save_artifacts pivot_blob model_blob) /\
  forall (fs0 : FileSystem) (i : nat),
    (1 <= i <= S (List.length pivot_blob))%nat ->
    fs_run fs0 (firstn i (save_artifacts pivot_blob model_blob)) book_pivot_path
      = Some (List.concat (firstn (i - 1) pivot_blob)) /\
    (fs0 model_knn_path <> None ->
     loads_cached_artifacts (fs_run fs0 (firstn i (save_artifacts pivot_blob model_blob))) = true).
Proof.
  split.
  - unfold save_artifacts, dump_to. apply Forall_app. split; constructor; auto;
      apply Forall_map, Forall_forall; auto.
  - intros fs0 i Hi. unfold save_artifacts.
    rewrite firstn_app.
    replace (i - List.length (dump_to book_pivot_path pivot_blob))%nat with 0%nat
      by (unfold dump_to; simpl; rewrite length_map; lia).
    rewrite firstn_0, app_nil_r.
    destruct i as [|j]; [lia |]. unfold dump_to. simpl firstn.
    rewrite firstn_map, ?Nat.sub_0_r.
    destruct (fs_run_dump_prefix fs0 book_pivot_path pivot_blob j) as [H1 H2].
    split; [exact H1 |].
    intro Hm. unfold loads_cached_artifacts, file_exists. rewrite H1.
    rewrite (H2 model_knn_path ltac:(discriminate)).
    destruct (fs0 model_knn_path); [reflexivity | contradiction].
Qed.

Lemma save_artifacts_in_place_witness :
  (1 <= 2 <= S (List.length [[1]; [2]]%nat))%nat /\
  earlier_build_fs model_knn_path <> None /\
  fs_run earlier_build_fs (firstn 2 (save_artifacts [[1]; [2]]%nat [[3]]%nat)) book_pivot_path
    = Some (List.concat (firstn (2 - 1) [[1]; [2]]%nat)) /\
  loads_cached_artifacts (fs_run earlier_build_fs (firstn 2 (save_artifacts [[1]; [2]]%nat [[3]]%nat))) = true.
Proof.
  assert (Hi : (1 <= 2 <= S (List.length [[1]; [2]]%nat))%nat) by (simpl; lia).
  assert (Hm : earlier_build_fs model_knn_path <> None) by (vm_compute; discriminate).
  destruct (proj2 (save_artifacts_in_place [[1]; [2]]%nat [[3]]%nat) earlier_build_fs 2%nat Hi) as [H1 H2].
  split; [exact Hi |]. split; [exact Hm |]. split; [exact H1 | exact (H2 Hm)].
Defined.

(** ** Further properties of the program *)

Lemma insert_Q_perm x l : Permutation (insert_Q x l) (x :: l).
Proof.
  induction l as [|y l IH]; simpl; [reflexivity |].
  destruct (Qle_bool x y); [reflexivity |]. rewrite IH. apply perm_swap.
Qed.

Lemma sort_Q_perm l : Permutation (sort_Q l) l.
Proof.
  induction l as [|x l IH]; simpl; [reflexivity |].
  unfold sort_Q in *. simpl. rewrite insert_Q_perm, IH. reflexivity.
Qed.

Lemma median_None l : median l = None <-> l = [].
Proof.
  unfold median. pose proof (Permutation_length (sort_Q_perm l)) as Hl.
  destruct (List.length (sort_Q l)) as [|n] eqn:E.
  - split; [intros _ | reflexivity]. destruct l; [reflexivity | simpl in Hl; lia].
  - split; [destruct (Nat.odd _); discriminate |].
    intros ->. simpl in Hl. lia.
Qed.

Lemma Q_mid_bounds (a b x y : Q) :
  a <= x -> a <= y -> x <= b -> y <= b -> a <= (x + y) / 2 <= b.
Proof.
  intros H1 H2 H3 H4. split.
  - apply Qle_shift_div_l; [reflexivity | lra].
  - apply Qle_shift_div_r; [reflexivity | lra].
Qed.

Lemma median_bounds l m :
  median l = Some m -> exists a b, In a l /\ In b l /\ a <= m <= b.
Proof.
  unfold median. pose proof (sort_Q_perm l) as Hp.
  assert (Hin : forall i, (i < List.length (sort_Q l))%nat -> In (nth i (sort_Q l) 0) l).
  { intros i Hi. apply (Permutation_in _ Hp). apply nth_In. exact Hi. }
  assert (Hmid : forall x y, In x l -> In y l ->
            exists a b, In a l /\ In b l /\ a <= (x + y) / 2 <= b).
  { intros x y Hx Hy. destruct (Qlt_le_dec y x) as [Hyx | Hxy].
    - exists y, x. split; [exact Hy | split; [exact Hx |]].
      apply Q_mid_bounds; [apply Qlt_le_weak; exact Hyx | apply Qle_refl | apply Qle_refl |
                           apply Qlt_le_weak; exact Hyx].
    - exists x, y. split; [exact Hx | split; [exact Hy |]].
      apply Q_mid_bounds; [apply Qle_refl | exact Hxy | exact Hxy | apply Qle_refl]. }
  destruct (List.length (sort_Q l)) as [|n] eqn:E; [discriminate |].
  pose proof (Nat.div_lt (S n) 2 ltac:(lia) ltac:(lia)) as Hd.
  destruct (Nat.odd (S n)); intro H; injection H as <-.
  - exists (nth (S n / 2) (sort_Q l) 0), (nth (S n / 2) (sort_Q l) 0).
    assert (In (nth (S n / 2) (sort_Q l) 0) l) by (apply Hin; exact Hd).
    split; [assumption | split; [assumption | split; apply Qle_refl]].
  - apply Hmid; apply Hin; simpl in Hd |- *; lia.
Qed.

Lemma in_observed_ages a us : In a (observed_ages us) <-> exists u, In u us /\ age u = Some a.
Proof.
  unfold observed_ages. rewrite in_flat_map. split.
  - intros (u & Hu & Ha). destruct (age u) as [b|] eqn:E; [|contradiction].
    destruct Ha as [<- | []]. eauto.
  - intros (u & Hu & Ha). exists u. rewrite Ha. auto with datatypes.
Qed.

Lemma filter_all_true {A : Type} (p : A -> bool) l :
  (forall x, In x l -> p x = true) -> filter p l = l.
Proof.
  induction l as [|x l IH]; simpl; intro H; [reflexivity |].
  rewrite (H x (or_introl eq_refl)), IH; [reflexivity | intros y Hy; apply H; right; exact Hy].
Qed.

(** X1: when some user has an age and every present age lies in [5, 100], the age filter of [load_or_preprocess_data] drops no user: the ids come out as in the input, in order. *)
Lemma preprocess_users_keeps_all (users_df : list User) :
  (exists u a, In u users_df /\ age u = Some a) ->
  (forall u a, In u users_df -> age u = Some a -> 5 <= a /\ a <= 100) ->
  map fst (preprocess_users users_df) = map user_id users_df.
Proof.
  intros (u0 & a0 & Hu0 & Ha0) Hrange.
  destruct (median (observed_ages users_df)) as [m|] eqn:Em.
  2:{ apply median_None in Em. assert (Hin : In a0 (observed_ages users_df))
        by (apply in_observed_ages; eauto). rewrite Em in Hin. contradiction. }
  destruct (median_bounds _ _ Em) as (lo & hi & Hlo & Hhi & Hm1 & Hm2).
  apply in_observed_ages in Hlo as (ul & Hul & Hal).
  apply in_observed_ages in Hhi as (uh & Huh & Hah).
  destruct (Hrange _ _ Hul Hal) as [Hl _]. destruct (Hrange _ _ Huh Hah) as [_ Hh].
  unfold preprocess_users. rewrite Em.
  rewrite filter_all_true.
  - rewrite !map_map. apply map_ext. intro u. unfold fillna_age. destruct (age u); reflexivity.
  - intros x Hx. apply in_map_iff in Hx as (u & <- & Hu). apply in_range_spec.
    unfold fillna_age. destruct (age u) as [a|] eqn:Ea.
    + exists a. split; [exact Ea | exact (Hrange u a Hu Ea)].
    + exists m. simpl. split; [reflexivity |].
      split; eapply Qle_trans; eassumption.
Qed.

(** X2: when no user has an age, the median is NaN, every filled age stays NaN and the range filter drops every user: the users table is empty. *)
Lemma preprocess_users_no_age (users_df : list User) :
  (forall u, In u users_df -> age u = None) -> preprocess_users users_df = [].
Proof.
  intro H. assert (Ho : observed_ages users_df = []).
  { destruct (observed_ages users_df) as [|a l] eqn:E; [reflexivity |].
    assert (Hin : In a (observed_ages users_df)) by (rewrite E; left; reflexivity).
    apply in_observed_ages in Hin as (u & Hu & Ha). rewrite (H u Hu) in Ha. discriminate. }
  unfold preprocess_users. cbv zeta. rewrite Ho. change (median []) with (@None Q).
  assert (Hf : filter age_in_range (map (fillna_age None) users_df) = []).
  { clear Ho. induction users_df as [|u us IH]; simpl; [reflexivity |].
    unfold fillna_age at 1. rewrite (H u (or_introl eq_refl)). simpl.
    apply IH. intros v Hv. apply H. right. exact Hv. }
  rewrite Hf. reflexivity.
Qed.

(** Pivot *)

Lemma inject_Z_succ n : inject_Z (Z.of_nat (S n)) == inject_Z (Z.of_nat n) + 1.
Proof. rewrite Nat2Z.inj_succ, <- Z.add_1_r, inject_Z_plus. reflexivity. Qed.

Lemma sum_Q_lower l :
  Forall (fun q => 1 <= q) l -> inject_Z (Z.of_nat (List.length l)) <= sum_Q l.
Proof.
  induction 1 as [|q l Hq Hl IH]; [apply Qle_refl |].
  change (sum_Q (q :: l)) with (q + sum_Q l).
  change (List.length (q :: l)) with (S (List.length l)).
  pose proof (inject_Z_succ (List.length l)). lra.
Qed.

Lemma sum_Q_upper l :
  Forall (fun q => q <= 10) l -> sum_Q l <= 10 * inject_Z (Z.of_nat (List.length l)).
Proof.
  induction 1 as [|q l Hq Hl IH]; [apply Qle_refl |].
  change (sum_Q (q :: l)) with (q + sum_Q l).
  change (List.length (q :: l)) with (S (List.length l)).
  pose proof (inject_Z_succ (List.length l)). lra.
Qed.

Lemma filtered_ratings_origin rs bs x :
  In x (filtered_ratings rs bs) ->
  exists r, In r rs /\ r_rating r <> 0%Z /\ rb_rating x = r_rating r.
Proof.
  unfold filtered_ratings, filter_active_users, filter_popular_books. cbv zeta.
  intro H. apply filter_In in H as [H _]. apply filter_In in H as [H _].
  apply In_merge_on_isbn in H as (r & b & Hr & _ & _ & ->).
  apply filter_In in Hr as [Hr Hnz]. exists r. split; [exact Hr |].
  split; [| reflexivity]. apply negb_true_iff, Z.eqb_neq in Hnz. exact Hnz.
Qed.

Lemma in_cell_group rb t u x :
  In x (cell_group rb t u) <-> In x rb /\ rb_title x = t /\ rb_user x = u.
Proof.
  unfold cell_group. rewrite filter_In, andb_true_iff, String.eqb_eq, Z.eqb_eq. tauto.
Qed.

Lemma pivot_cell_absent rb t u :
  ~ (exists x, In x rb /\ rb_title x = t /\ rb_user x = u) -> pivot_cell rb t u = 0.
Proof.
  intro Hn. unfold pivot_cell. cbv zeta. fold (cell_group rb t u).
  destruct (cell_group rb t u) as [|y g] eqn:Eg; [reflexivity |].
  exfalso. apply Hn. exists y. apply in_cell_group. rewrite Eg. left. reflexivity.
Qed.

Lemma pivot_cell_present rb t u :
  (exists x, In x rb /\ rb_title x = t /\ rb_user x = u) ->
  exists g, cell_group rb t u = g /\ g <> [] /\
    pivot_cell rb t u = sum_Q (map (fun x => inject_Z (rb_rating x)) g) /
                        inject_Z (Z.of_nat (List.length (map (fun x => inject_Z (rb_rating x)) g))).
Proof.
  intros (x & Hx). unfold pivot_cell. cbv zeta. fold (cell_group rb t u).
  apply in_cell_group in Hx.
  destruct (cell_group rb t u) as [|y g] eqn:Eg; [contradiction |].
  exists (y :: g). split; [reflexivity | split; [discriminate | reflexivity]].
Qed.

Lemma inject_Z_length_pos {A : Type} (l : list A) :
  l <> [] -> 0 < inject_Z (Z.of_nat (List.length l)).
Proof.
  intro H. destruct l as [|a l]; [congruence |].
  change 0 with (inject_Z 0). rewrite <- Zlt_Qlt. simpl. lia.
Qed.

Lemma pivot_cell_ge_1 rb t u :
  (forall x, In x rb -> (1 <= rb_rating x)%Z) ->
  (exists x, In x rb /\ rb_title x = t /\ rb_user x = u) ->
  1 <= pivot_cell rb t u.
Proof.
  intros Hr Hex. destruct (pivot_cell_present _ _ _ Hex) as (g & Eg & Hne & ->).
  apply Qle_shift_div_l.
  - apply inject_Z_length_pos. intro H. apply map_eq_nil in H. congruence.
  - rewrite Qmult_1_l. apply sum_Q_lower. apply Forall_map, Forall_forall.
    intros y Hy. rewrite <- Eg in Hy. apply in_cell_group in Hy as [Hy _].
    change 1 with (inject_Z 1). rewrite <- Zle_Qle. apply Hr. exact Hy.
Qed.

Lemma pivot_cell_le_10 rb t u :
  (forall x, In x rb -> (rb_rating x <= 10)%Z) ->
  (exists x, In x rb /\ rb_title x = t /\ rb_user x = u) ->
  pivot_cell rb t u <= 10.
Proof.
  intros Hr Hex. destruct (pivot_cell_present _ _ _ Hex) as (g & Eg & Hne & ->).
  apply Qle_shift_div_r.
  - apply inject_Z_length_pos. intro H. apply map_eq_nil in H. congruence.
  - apply sum_Q_upper. apply Forall_map, Forall_forall.
    intros y Hy. rewrite <- Eg in Hy. apply in_cell_group in Hy as [Hy _].
    change 10 with (inject_Z 10). rewrite <- Zle_Qle. apply Hr. exact Hy.
Qed.

Lemma build_book_pivot_values ratings_df books_df :
  pv_values (build_book_pivot ratings_df books_df) =
  map (fun t => map (fun u => pivot_cell (filtered_ratings ratings_df books_df) t u)
                  (pv_columns (build_book_pivot ratings_df books_df)))
      (pv_index (build_book_pivot ratings_df books_df)).
Proof. reflexivity. Qed.

Lemma build_book_pivot_index ratings_df books_df :
  pv_index (build_book_pivot ratings_df books_df) =
  sort_uniq str_cmp (map rb_title (filtered_ratings ratings_df books_df)).
Proof. reflexivity. Qed.

Lemma build_book_pivot_columns ratings_df books_df :
  pv_columns (build_book_pivot ratings_df books_df) =
  sort_uniq Z.compare (map rb_user (filtered_ratings ratings_df books_df)).
Proof. reflexivity. Qed.

(** X3: the user-item matrix has its row titles sorted and distinct and its column users sorted and distinct; a title is a row, and a user a column, iff some filtered rating has it; the values form a rectangle of one row per title and one cell per user. *)
Theorem build_book_pivot_shape (ratings_df : list Rating) (books_df : list Book) :
  let pv := build_book_pivot ratings_df books_df in
  let rb := filtered_ratings ratings_df books_df in
  Sorted String_as_OT.lt (pv_index pv) /\ NoDup (pv_index pv) /\
  Sorted Z.lt (pv_columns pv) /\ NoDup (pv_columns pv) /\
  (forall t, In t (pv_index pv) <-> exists x, In x rb /\ rb_title x = t) /\
  (forall u, In u (pv_columns pv) <-> exists x, In x rb /\ rb_user x = u) /\
  List.length (pv_values pv) = List.length (pv_index pv) /\
  Forall (fun row => List.length row = List.length (pv_columns pv)) (pv_values pv).
Proof.
  intros pv rb. subst pv rb.
  rewrite build_book_pivot_values, build_book_pivot_index, build_book_pivot_columns.
  split; [apply (sort_uniq_sorted _ _ _ str_cmp_spec) |].
  split; [apply sort_uniq_str_NoDup |].
  split; [apply (sort_uniq_sorted _ _ _ Z_cmp_spec) |].
  split; [apply (sort_uniq_NoDup _ _ _ Z_cmp_spec Z.lt_trans Z.lt_irrefl) |].
  split; [intro t; rewrite In_sort_uniq_str, in_map_iff; firstorder |].
  split; [intro u; rewrite In_sort_uniq_Z, in_map_iff; firstorder |].
  split; [apply length_map |].
  apply Forall_map, Forall_forall. intros t _. apply length_map.
Qed.

Lemma filtered_ratings_positive rs bs :
  (forall r, In r rs -> (0 <= r_rating r)%Z) ->
  forall x, In x (filtered_ratings rs bs) -> (1 <= rb_rating x)%Z.
Proof.
  intros H x Hx. destruct (filtered_ratings_origin _ _ _ Hx) as (r & Hr & Hnz & ->).
  specialize (H r Hr). lia.
Qed.

Lemma cell_rated_dec rb t u :
  {exists x, In x rb /\ rb_title x = t /\ rb_user x = u} +
  {~ exists x, In x rb /\ rb_title x = t /\ rb_user x = u}.
Proof.
  destruct (cell_group rb t u) as [|y g] eqn:Eg.
  - right. intros (x & Hx). apply in_cell_group in Hx. rewrite Eg in Hx. exact Hx.
  - left. exists y. apply in_cell_group. rewrite Eg. left. reflexivity.
Qed.

Lemma pivot_cell_nonzero rb t u :
  (forall x, In x rb -> (1 <= rb_rating x)%Z) ->
  (exists x, In x rb /\ rb_title x = t /\ rb_user x = u) ->
  ~ pivot_cell rb t u == 0.
Proof.
  intros Hpos Hex H0. pose proof (pivot_cell_ge_1 _ _ _ Hpos Hex) as H1.
  lra.
Qed.

(** X4: with ratings in [0, 10], a cell of the matrix is 0 iff no filtered rating of that title by that user exists, and a non-zero cell lies in [1, 10]. *)
Theorem build_book_pivot_cells (ratings_df : list Rating) (books_df : list Book) :
  (forall r, In r ratings_df -> (0 <= r_rating r <= 10)%Z) ->
  forall i j t u,
    nth_error (pv_index (build_book_pivot ratings_df books_df)) i = Some t ->
    nth_error (pv_columns (build_book_pivot ratings_df books_df)) j = Some u ->
    exists row v,
      nth_error (pv_values (build_book_pivot ratings_df books_df)) i = Some row /\
      nth_error row j = Some v /\
      (v == 0 <-> ~ exists x, In x (filtered_ratings ratings_df books_df) /\
                              rb_title x = t /\ rb_user x = u) /\
      (~ v == 0 -> 1 <= v <= 10).
Proof.
  intros Hr i j t u Hi Hj.
  assert (Hpos : forall x, In x (filtered_ratings ratings_df books_df) -> (1 <= rb_rating x)%Z)
    by (apply filtered_ratings_positive; intros r Hr'; apply Hr; exact Hr').
  assert (Hle : forall x, In x (filtered_ratings ratings_df books_df) -> (rb_rating x <= 10)%Z).
  { intros x Hx. destruct (filtered_ratings_origin _ _ _ Hx) as (r & Hr' & _ & ->).
    apply Hr. exact Hr'. }
  rewrite build_book_pivot_values, nth_error_map, Hi. cbn [option_map].
  eexists. exists (pivot_cell (filtered_ratings ratings_df books_df) t u).
  split; [reflexivity |].
  rewrite nth_error_map, Hj. split; [reflexivity |].
  destruct (cell_rated_dec (filtered_ratings ratings_df books_df) t u) as [Hex | Hn].
  - split; [split |].
    + intro H0. exfalso. exact (pivot_cell_nonzero _ _ _ Hpos Hex H0).
    + intro Hn. contradiction.
    + intros _. split; [exact (pivot_cell_ge_1 _ _ _ Hpos Hex) |
                        exact (pivot_cell_le_10 _ _ _ Hle Hex)].
  - rewrite (pivot_cell_absent _ _ _ Hn). split; [split |].
    + intros _. exact Hn.
    + intros _. reflexivity.
    + intros H. exfalso. apply H. reflexivity.
Qed.

(** X5: with non-negative ratings, every row and every column of the matrix has a non-zero cell. *)
Theorem build_book_pivot_no_zero_line (ratings_df : list Rating) (books_df : list Book) :
  (forall r, In r ratings_df -> (0 <= r_rating r)%Z) ->
  (forall row, In row (pv_values (build_book_pivot ratings_df books_df)) ->
     exists v, In v row /\ ~ v == 0) /\
  (forall j, (j < List.length (pv_columns (build_book_pivot ratings_df books_df)))%nat ->
     exists row v, In row (pv_values (build_book_pivot ratings_df books_df)) /\
       nth_error row j = Some v /\ ~ v == 0).
Proof.
  intro Hr.
  pose proof (filtered_ratings_positive _ books_df Hr) as Hpos.
  rewrite build_book_pivot_values. split.
  - intros row Hrow. apply in_map_iff in Hrow as (t & <- & Ht).
    rewrite build_book_pivot_index, In_sort_uniq_str, in_map_iff in Ht.
    destruct Ht as (x & Hxt & Hx).
    exists (pivot_cell (filtered_ratings ratings_df books_df) t (rb_user x)). split.
    + apply in_map. rewrite build_book_pivot_columns, In_sort_uniq_Z.
      apply in_map. exact Hx.
    + apply pivot_cell_nonzero; [exact Hpos |]. exists x. auto.
  - intros j Hj. apply nth_error_Some in Hj.
    destruct (nth_error (pv_columns (build_book_pivot ratings_df books_df)) j) as [u|] eqn:Eu;
      [|congruence].
    pose proof (nth_error_In _ _ Eu) as Hu.
    rewrite build_book_pivot_columns, In_sort_uniq_Z, in_map_iff in Hu.
    destruct Hu as (x & Hxu & Hx).
    exists (map (fun u => pivot_cell (filtered_ratings ratings_df books_df) (rb_title x) u)
             (pv_columns (build_book_pivot ratings_df books_df))).
    exists (pivot_cell (filtered_ratings ratings_df books_df) (rb_title x) u). split.
    + apply in_map_iff. exists (rb_title x). split; [reflexivity |].
      rewrite build_book_pivot_index, In_sort_uniq_str. apply in_map. exact Hx.
    + rewrite nth_error_map, Eu. split; [reflexivity |].
      apply pivot_cell_nonzero; [exact Hpos |]. exists x. auto.
Qed.

(** Books preprocessing *)

Lemma fold_fixes_map fxs bs :
  fold_left (fun bs fx => map (fix_row fx) bs) fxs bs =
  map (fun b => fold_left (fun b fx => fix_row fx b) fxs b) bs.
Proof.
  revert bs. induction fxs as [|fx fxs IH]; intro bs; simpl.
  - symmetry. apply map_id.
  - rewrite IH, map_map. reflexivity.
Qed.

Lemma fold_fixes_keys fxs b :
  raw_isbn (fold_left (fun b fx => fix_row fx b) fxs b) = raw_isbn b /\
  raw_title (fold_left (fun b fx => fix_row fx b) fxs b) = raw_title b /\
  raw_year (fold_left (fun b fx => fix_row fx b) fxs b) = raw_year b.
Proof.
  revert b. induction fxs as [|[[k a] p] fxs IH]; intro b; cbn [fold_left]; [auto |].
  destruct (IH (fix_row (k, a, p) b)) as (H1 & H2 & H3).
  rewrite H1, H2, H3. unfold fix_row. destruct (String.eqb (raw_isbn b) k); simpl; auto.
Qed.

Lemma apply_manual_fixes_map bs : apply_manual_fixes bs = map fix_all bs.
Proof. apply fold_fixes_map. Qed.

Lemma insert_float_perm x l : Permutation (insert_float x l) (x :: l).
Proof.
  induction l as [|y l IH]; simpl; [reflexivity |].
  destruct (float_le x y); [reflexivity |]. rewrite IH. apply perm_swap.
Qed.

Lemma sort_float_perm l : Permutation (sort_float l) l.
Proof.
  induction l as [|x l IH]; simpl; [reflexivity |].
  unfold sort_float in *. simpl. rewrite insert_float_perm, IH. reflexivity.
Qed.

Lemma median_float_bounds l m :
  median_float l = Some (FNum m) ->
  exists lo hi, In (FNum lo) l /\ In (FNum hi) l /\ lo <= m <= hi.
Proof.
  unfold median_float. pose proof (sort_float_perm l) as Hp.
  assert (Hin : forall i, (i < List.length (sort_float l))%nat -> In (nth i (sort_float l) (FNum 0)) l).
  { intros i Hi. apply (Permutation_in _ Hp). apply nth_In. exact Hi. }
  destruct (List.length (sort_float l)) as [|n] eqn:E; [discriminate |].
  pose proof (Nat.div_lt (S n) 2 ltac:(lia) ltac:(lia)) as Hd.
  assert (Ha := Hin (S n / 2 - 1)%nat ltac:(simpl in Hd |- *; lia)).
  assert (Hb := Hin (S n / 2)%nat Hd).
  set (x0 := nth (S n / 2 - 1) (sort_float l) (FNum 0)) in *.
  set (y0 := nth (S n / 2) (sort_float l) (FNum 0)) in *.
  clearbody x0 y0.
  destruct (Nat.odd (S n)); intro H.
  - injection H as ->.
    exists m, m. split; [exact Hb | split; [exact Hb | split; apply Qle_refl]].
  - destruct x0 as [x|p]; destruct y0 as [y|p'];
      simpl in H; try discriminate; [| destruct (Bool.eqb p p'); discriminate].
    injection H as <-.
    destruct (Qlt_le_dec y x) as [Hyx | Hxy].
    + exists y, x. split; [exact Hb | split; [exact Ha |]].
      apply Q_mid_bounds; [apply Qlt_le_weak; exact Hyx | apply Qle_refl | apply Qle_refl |
                           apply Qlt_le_weak; exact Hyx].
    + exists x, y. split; [exact Ha | split; [exact Hb |]].
      apply Q_mid_bounds; [apply Qle_refl | exact Hxy | exact Hxy | apply Qle_refl].
Qed.






Lemma flat_map_opt_map {A B : Type} (f : A -> option B) l :
  flat_map (fun x => opt_to_list (f x)) l = flat_map opt_to_list (map f l).
Proof. induction l as [|x l IH]; simpl; [reflexivity | rewrite IH; reflexivity]. Qed.

Lemma preprocess_books_unfold to_numeric cast bs :
  preprocess_books to_numeric cast bs =
  (years <- astype_int cast
              (map (fill_year (median_float (flat_map opt_to_list (map (numeric_year to_numeric) bs))))
                   (map (numeric_year to_numeric) bs)) ;;
   Ok (map (fun '(b, y) => clean_row b y) (combine (map fix_all bs) years))).
Proof.
  unfold preprocess_books. cbv zeta. rewrite apply_manual_fixes_map.
  assert (Hny : map (numeric_year to_numeric) (map fix_all bs) = map (numeric_year to_numeric) bs).
  { rewrite map_map. apply map_ext. intro b. unfold numeric_year.
    destruct (fold_fixes_keys manual_fixes b) as (_ & _ & H). unfold fix_all. rewrite H. reflexivity. }
  rewrite Hny. reflexivity.
Qed.


Lemma clean_rows_spec (nyear : RawBook -> option Float) (cast : Q -> Z) (M : option Float) bs qs :
  finite_values (map (fill_year M) (map nyear bs)) = Some qs ->
  Forall2 (fun b c => cb_isbn c = raw_isbn b /\ cb_title c = raw_title b /\
             exists y, cb_year c = cast_int64 cast y /\
               (nyear b = Some (FNum y) \/ (nyear b = None /\ M = Some (FNum y))))
    bs (map (fun '(b, y) => clean_row b y) (combine (map fix_all bs) (map (cast_int64 cast) qs))).
Proof.
  revert qs. induction bs as [|b bs IH]; intros qs H; simpl in H.
  - injection H as <-. constructor.
  - destruct (fill_year M (nyear b)) as [[v|p]|] eqn:Ef; try discriminate.
    destruct (finite_values (map (fill_year M) (map nyear bs))) as [qs'|] eqn:E; simpl in H;
      [|discriminate].
    injection H as <-. simpl.
    destruct (fold_fixes_keys manual_fixes b) as (H1 & H2 & _).
    constructor.
    + unfold clean_row. simpl. unfold fix_all. rewrite H1, H2.
      split; [reflexivity | split; [reflexivity |]]. exists v. split; [reflexivity |].
      unfold fill_year in Ef. destruct (nyear b); [left; exact Ef | right; auto].
    + apply IH. first [exact E | reflexivity].
Qed.

(** X7: when the books preprocessing succeeds, its rows match the input rows one for one and keep ISBN and title; the year is the int64 cast of the parsed year or, for a year that does not parse, of the median of the parsed years, which is finite and lies between two parsed years; a value whose truncation fits in int64 becomes that truncation. *)
Theorem preprocess_books_rows (to_numeric : string -> option Float) (cast_out_of_range : Q -> Z)
    (bs : list RawBook) (cs : list CleanBook) :
  preprocess_books to_numeric cast_out_of_range bs = Ok cs ->
  Forall2 (fun b c =>
    cb_isbn c = raw_isbn b /\ cb_title c = raw_title b /\
    exists y, cb_year c = cast_int64 cast_out_of_range y /\
      ((- 2 ^ 63 <= py_int y <= 2 ^ 63 - 1)%Z -> cb_year c = py_int y) /\
      (numeric_year to_numeric b = Some (FNum y) \/
       (numeric_year to_numeric b = None /\
        median_float (flat_map (fun b' => opt_to_list (numeric_year to_numeric b')) bs) = Some (FNum y) /\
        exists b1 b2, In b1 bs /\ In b2 bs /\
          exists lo hi, numeric_year to_numeric b1 = Some (FNum lo) /\
                        numeric_year to_numeric b2 = Some (FNum hi) /\ lo <= y <= hi))) bs cs.
Proof.
  rewrite preprocess_books_unfold. intro H.
  rewrite <- flat_map_opt_map in H.
  set (M := median_float (flat_map (fun b' => opt_to_list (numeric_year to_numeric b')) bs)) in H |- *.
  unfold astype_int in H.
  destruct (finite_values (map (fill_year M) (map (numeric_year to_numeric) bs))) as [qs|] eqn:E;
    simpl in H; [|discriminate].
  injection H as <-.
  eapply Forall2_impl; [| exact (clean_rows_spec _ cast_out_of_range M _ _ E)].
  intros b c (H1 & H2 & y & Hy & Hcase). split; [exact H1 | split; [exact H2 |]].
  exists y. split; [exact Hy |]. split.
  { intro Hr. rewrite Hy. unfold cast_int64, int64_in_range.
    replace ((- 2 ^ 63 <=? py_int y) && (py_int y <=? 2 ^ 63 - 1))%Z with true; [reflexivity |].
    symmetry. apply andb_true_iff. split; apply Z.leb_le; lia. }
  destruct Hcase as [Hs | [Hn Hm]]; [left; exact Hs | right].
  split; [exact Hn | split; [exact Hm |]].
  destruct (median_float_bounds _ _ Hm) as (lo & hi & Hlo & Hhi & Hb).
  apply in_flat_map in Hlo as (b1 & Hb1 & Hlo). apply in_flat_map in Hhi as (b2 & Hb2 & Hhi).
  exists b1, b2. split; [exact Hb1 | split; [exact Hb2 |]]. exists lo, hi.
  destruct (numeric_year to_numeric b1) as [v1|]; [|contradiction].
  destruct (numeric_year to_numeric b2) as [v2|]; [|contradiction].
  destruct Hlo as [<- | []]. destruct Hhi as [<- | []]. auto.
Qed.

Lemma filter_map_comm {A : Type} (f : A -> A) (p : A -> bool) l :
  (forall x, p (f x) = p x) -> filter p (map f l) = map f (filter p l).
Proof.
  intro H. induction l as [|x l IH]; simpl; [reflexivity |].
  rewrite H. destruct (p x); simpl; rewrite IH; reflexivity.
Qed.

Lemma title_count_strip rb t : title_count (map strip_rb rb) t = title_count rb t.
Proof. unfold title_count. rewrite filter_map_comm by reflexivity. apply length_map. Qed.

Lemma user_count_strip rb u : user_count (map strip_rb rb) u = user_count rb u.
Proof. unfold user_count. rewrite filter_map_comm by reflexivity. apply length_map. Qed.

Lemma filter_popular_strip rb :
  filter_popular_books (map strip_rb rb) = map strip_rb (filter_popular_books rb).
Proof.
  unfold filter_popular_books.
  rewrite (filter_ext _ (fun x => 35 <=? title_count rb (rb_title x))%nat)
    by (intro x; rewrite title_count_strip; reflexivity).
  apply filter_map_comm. reflexivity.
Qed.

Lemma filter_active_strip rb :
  filter_active_users (map strip_rb rb) = map strip_rb (filter_active_users rb).
Proof.
  unfold filter_active_users.
  rewrite (filter_ext _ (fun x => 10 <=? user_count rb (rb_user x))%nat)
    by (intro x; rewrite user_count_strip; reflexivity).
  apply filter_map_comm. reflexivity.
Qed.

Lemma pivot_table_strip rb : pivot_table (map strip_rb rb) = pivot_table rb.
Proof.
  assert (Hc : forall t u, pivot_cell (map strip_rb rb) t u = pivot_cell rb t u).
  { intros t u. unfold pivot_cell. rewrite filter_map_comm by reflexivity.
    rewrite map_map. reflexivity. }
  unfold pivot_table. rewrite !map_map. simpl.
  f_equal. apply map_ext. intro t. apply map_ext. intro u. apply Hc.
Qed.

Lemma merge_strip rs bs1 bs2 :
  map book_key bs1 = map book_key bs2 ->
  map strip_rb (merge_on_isbn rs bs1) = map strip_rb (merge_on_isbn rs bs2).
Proof.
  intro Hk. unfold merge_on_isbn.
  induction rs as [|r rs IH]; simpl; [reflexivity |].
  rewrite !map_app, IH. f_equal. clear IH.
  revert bs2 Hk. induction bs1 as [|b1 bs1 IH]; intros [|b2 bs2] Hk; simpl in Hk;
    try discriminate; [reflexivity |].
  injection Hk as Hi Ht Hrest. simpl. rewrite Hi.
  destruct (String.eqb (isbn b2) (r_isbn r)); simpl; rewrite (IH _ Hrest); [| reflexivity].
  unfold strip_rb. simpl. rewrite Ht. reflexivity.
Qed.

Lemma build_book_pivot_keys rs bs1 bs2 :
  map book_key bs1 = map book_key bs2 -> build_book_pivot rs bs1 = build_book_pivot rs bs2.
Proof.
  intro Hk. unfold build_book_pivot, filtered_ratings. cbv zeta.
  rewrite <- (pivot_table_strip (filter_active_users (filter_popular_books (merge_on_isbn (explicit_ratings rs) bs1)))).
  rewrite <- (pivot_table_strip (filter_active_users (filter_popular_books (merge_on_isbn (explicit_ratings rs) bs2)))).
  rewrite <- !filter_active_strip, <- !filter_popular_strip, (merge_strip _ _ _ Hk).
  reflexivity.
Qed.

(** X8: the user-item matrix built from the preprocessed books table is the one built from the raw rows of [Books.csv]: the preprocessing changes only columns the matrix does not read. *)
Theorem build_pivot_ignores_book_preprocessing (to_numeric : string -> option Float)
    (cast_out_of_range : Q -> Z) (ratings_df : list Rating) (bs : list RawBook) (cs : list CleanBook) :
  preprocess_books to_numeric cast_out_of_range bs = Ok cs ->
  build_book_pivot ratings_df (map clean_book cs) = build_book_pivot ratings_df (map raw_book bs).
Proof.
  rewrite preprocess_books_unfold. intro H. unfold astype_int in H.
  destruct (finite_values _) as [qs|] eqn:E; simpl in H; [|discriminate].
  injection H as <-. apply build_book_pivot_keys.
  pose proof (clean_rows_spec _ cast_out_of_range _ _ _ E) as HF.
  induction HF as [|b c bs' cs' (H1 & H2 & _) _ IH]; simpl; [reflexivity |].
  unfold book_key at 1 3. simpl. rewrite H1, H2. f_equal. exact IH.
Qed.

(** Book metadata and exact recommendation counts *)

Lemma filter_drop_duplicates_title seen bs t :
  filter (fun b => String.eqb (book_title b) t) (drop_duplicates_title_from seen bs) =
  if existsb (String.eqb t) seen then []
  else opt_to_list (find (fun b => String.eqb (book_title b) t) bs).
Proof.
  revert seen. induction bs as [|b bs IH]; intro seen; simpl.
  - destruct (existsb _ seen); reflexivity.
  - destruct (existsb (String.eqb (book_title b)) seen) eqn:Eb.
    + rewrite IH. destruct (String.eqb (book_title b) t) eqn:Et; [| reflexivity].
      apply String.eqb_eq in Et. subst t. rewrite Eb. reflexivity.
    + simpl. rewrite IH. simpl.
      destruct (String.eqb (book_title b) t) eqn:Et.
      * apply String.eqb_eq in Et. subst t. rewrite String.eqb_refl, Eb. reflexivity.
      * rewrite (String.eqb_sym t (book_title b)), Et. simpl. reflexivity.
Qed.

Lemma flat_map_singleton {A B : Type} (f : A -> list B) (g : A -> B) l :
  (forall x, In x l -> f x = [g x]) -> flat_map f l = map g l.
Proof.
  induction l as [|x l IH]; simpl; intro H; [reflexivity |].
  rewrite (H x (or_introl eq_refl)), IH; [reflexivity | intros y Hy; apply H; right; exact Hy].
Qed.

(** X9: [book_info] gives, for each matrix title in index order, the author and large image of the first book row with that title, and none when no row has that title. *)
Theorem build_book_info_first_rows (pv : Pivot) (books_df : list Book) :
  build_book_info pv books_df =
  map (fun t => match find (fun b => String.eqb (book_title b) t) books_df with
                | Some b => mkBookInfo t (book_author b) (image_url_l b)
                | None => mkBookInfo t None None
                end) (pv_index pv).
Proof.
  unfold build_book_info, merge_left_on_title, drop_duplicates_title.
  apply flat_map_singleton. intros t _.
  rewrite filter_drop_duplicates_title. simpl.
  destruct (find _ books_df); reflexivity.
Qed.

Lemma build_book_info_map pv books_df :
  build_book_info pv books_df = map (first_book_info books_df) (pv_index pv).
Proof.
  unfold build_book_info, merge_left_on_title, drop_duplicates_title, first_book_info.
  apply flat_map_singleton. intros t _.
  rewrite filter_drop_duplicates_title. simpl.
  destruct (find _ books_df); reflexivity.
Qed.

Lemma filter_first_book_info bs index t :
  In t index -> exists rest,
    filter (fun r => String.eqb (bi_title r) t) (map (first_book_info bs) index) =
    first_book_info bs t :: rest.
Proof.
  induction index as [|t' index IH]; simpl; [contradiction |].
  assert (Ht' : bi_title (first_book_info bs t') = t')
    by (unfold first_book_info; destruct (find _ bs); reflexivity).
  rewrite Ht'. intros Hin. destruct (String.eqb t' t) eqn:E.
  - apply String.eqb_eq in E. subst t'. eexists. reflexivity.
  - destruct Hin as [-> | Hin]; [rewrite String.eqb_refl in E; discriminate |].
    exact (IH Hin).
Qed.

Lemma build_recommendations_info index bs rank data :
  (forall p, In p data -> (fst p < List.length index)%nat) ->
  exists recs,
    build_recommendations index (map (first_book_info bs) index) rank data = Ok recs /\
    map rec_rank recs = seq rank (List.length data) /\
    Forall2 (fun p it => nth_error index (fst p) = Some (rec_title it) /\
                         rec_author it = shown_author bs (rec_title it) /\
                         rec_image_url it = shown_image bs (rec_title it)) data recs.
Proof.
  intro Hrange. revert rank.
  induction data as [|[idx s] rest IH]; intro rank; simpl.
  - exists []. split; [reflexivity | split; [reflexivity | constructor]].
  - assert (Hi : (idx < List.length index)%nat) by exact (Hrange (idx, s) (or_introl eq_refl)).
    apply nth_error_Some in Hi.
    destruct (nth_error index idx) as [title|] eqn:Ei; [|congruence].
    destruct (IH (fun p Hp => Hrange p (or_intror Hp)) (S rank)) as (recs & -> & Hr & HF).
    simpl. destruct (filter_first_book_info bs index title (nth_error_In _ _ Ei)) as (rest' & ->).
    eexists. split; [reflexivity |]. split; [simpl; rewrite Hr; reflexivity |].
    constructor; [| exact HF]. simpl. split; [exact Ei |].
    unfold shown_author, shown_image. split; reflexivity.
Qed.

Lemma Forall2_in_r {A B : Type} (P : A -> B -> Prop) l1 l2 y :
  Forall2 P l1 l2 -> In y l2 -> exists x, In x l1 /\ P x y.
Proof.
  induction 1 as [|x y' l1 l2 Hxy _ IH]; simpl; [contradiction |].
  intros [<- | Hy]; [exists x; auto |]. destruct (IH Hy) as (x' & Hx' & HP). eauto.
Qed.

Lemma recommend_books_full_ranking (book_name : string) (pv : Pivot)
    (order : nat -> list nat) (dist : nat -> nat -> Q) (books_df : list Book) (k : Z) :
  In book_name (pv_index pv) ->
  (0 <= k)%Z ->
  (k + 1 <= Z.of_nat (List.length (pv_index pv)))%Z ->
  (forall q, (q < List.length (pv_index pv))%nat ->
     Permutation (order q) (seq 0 (List.length (pv_index pv)))) ->
  exists items,
    recommend_books book_name pv (fit_nearest_neighbors 20 pv order dist)
      (build_book_info pv books_df) k
      = Ok (Some ("Recommendations for '" ++ book_name ++ "'"), items) /\
    map rec_rank items = seq 1 (Z.to_nat k) /\
    Forall (fun it => In (rec_title it) (pv_index pv) /\
                      rec_author it = shown_author books_df (rec_title it) /\
                      rec_image_url it = shown_image books_df (rec_title it)) items.
Proof.
  intros Hin Hk Hn Hord.
  set (n := List.length (pv_index pv)) in *.
  destruct (get_loc_In _ _ _ str_cmp_spec str_lt_irrefl _ _ Hin) as (q & Hq & Hq').
  assert (Hqn : (q < n)%nat) by (apply nth_error_Some; congruence).
  set (model := fit_nearest_neighbors 20 pv order dist).
  assert (Hkn : kneighbors model q (Some (k + 1)%Z) =
                Ok (map (nn_dist model q) (firstn (Z.to_nat (k + 1)) (nn_order model q)),
                    firstn (Z.to_nat (k + 1)) (nn_order model q)))
    by (apply kneighbors_ok; simpl; lia).
  rewrite (recommend_books_found _ _ _ _ _ _ _ Hq Hkn).
  rewrite py_slice_to_nonneg by exact Hk.
  pose proof (recommendation_data_indices _ _ _ _ _ Hkn) as Hperm.
  set (data := recommendation_data _) in *.
  assert (Hlo : List.length (order q) = n)
    by (rewrite (Permutation_length (Hord q Hqn)); apply length_seq).
  assert (Hlen : List.length data = Z.to_nat k).
  { rewrite <- (length_map fst data), (Permutation_length Hperm). simpl.
    rewrite length_tl, length_firstn, Hlo. lia. }
  assert (Hrange : forall p, In p (firstn (Z.to_nat k) data) -> (fst p < n)%nat).
  { intros p Hp. apply In_firstn_l in Hp.
    assert (H1 : In (fst p) (map fst data)) by (apply in_map; exact Hp).
    apply (Permutation_in _ Hperm), In_tl, In_firstn_l in H1. simpl in H1.
    apply (Permutation_in _ (Hord q Hqn)), in_seq in H1. lia. }
  rewrite build_book_info_map.
  destruct (build_recommendations_info (pv_index pv) books_df 1 _ Hrange) as (recs & -> & Hr & HF).
  exists recs. split; [reflexivity |].
  split; [rewrite Hr, length_firstn, Hlen, Nat.min_id; reflexivity |].
  apply Forall_forall. intros it Hit.
  destruct (Forall2_in_r _ _ _ _ HF Hit) as (p & _ & Ht & Ha & Hi).
  split; [exact (nth_error_In _ _ Ht) | split; assumption].
Qed.

(** X10: for a matrix title, [0 <= k] and [k + 1] at most the number of rows, with an index that returns every row, [recommend_books] returns exactly [k] items, each with the author and image of the first book row of its title, or [Unknown] and [No Image]. *)
Theorem recommend_books_exactly_k (book_name : string) (pv : Pivot)
    (order : nat -> list nat) (dist : nat -> nat -> Q) (books_df : list Book) (k : Z) :
  In book_name (pv_index pv) ->
  (0 <= k)%Z ->
  (k + 1 <= Z.of_nat (List.length (pv_index pv)))%Z ->
  (forall q, (q < List.length (pv_index pv))%nat ->
     Permutation (order q) (seq 0 (List.length (pv_index pv)))) ->
  exists items,
    recommend_books book_name pv (fit_nearest_neighbors 20 pv order dist)
      (build_book_info pv books_df) k
      = Ok (Some ("Recommendations for '" ++ book_name ++ "'"), items) /\
    List.length items = Z.to_nat k /\
    Forall (fun it =>
      rec_author it = match find (fun b => String.eqb (book_title b) (rec_title it)) books_df with
                      | Some b => match book_author b with Some a => a | None => "Unknown" end
                      | None => "Unknown"
                      end /\
      rec_image_url it = match find (fun b => String.eqb (book_title b) (rec_title it)) books_df with
                         | Some b => match image_url_l b with Some i => i | None => "No Image" end
                         | None => "No Image"
                         end) items.
Proof.
  intros Hin Hk Hn Hord.
  destruct (recommend_books_full_ranking _ _ _ dist books_df _ Hin Hk Hn Hord) as (items & He & Hr & HF).
  exists items. split; [exact He |]. split.
  - rewrite <- (length_map rec_rank items), Hr. apply length_seq.
  - eapply Forall_impl; [| exact HF]. intros it (_ & Ha & Hi).
    unfold shown_author, shown_image, first_book_info in *.
    destruct (find _ books_df); simpl in *; split; assumption.
Qed.

(** X11: for a matrix title, [k = 0] gives the header and no item, and a negative [k] raises ValueError. *)
Theorem recommend_books_nonpositive_k (book_name : string) (pv : Pivot)
    (order : nat -> list nat) (dist : nat -> nat -> Q) (bi : list BookInfo) (k : Z) :
  In book_name (pv_index pv) ->
  (k = 0%Z -> recommend_books book_name pv (fit_nearest_neighbors 20 pv order dist) bi k
              = Ok (Some ("Recommendations for '" ++ book_name ++ "'"), [])) /\
  ((k < 0)%Z -> recommend_books book_name pv (fit_nearest_neighbors 20 pv order dist) bi k
                = Err ValueError).
Proof.
  intro Hin.
  destruct (get_loc_In _ _ _ str_cmp_spec str_lt_irrefl _ _ Hin) as (q & Hq & Hq').
  assert (Hqn : (q < List.length (pv_index pv))%nat) by (apply nth_error_Some; congruence).
  split.
  - intros ->. unfold recommend_books. rewrite Hq.
    rewrite kneighbors_ok by (simpl; lia). reflexivity.
  - intro Hk. unfold recommend_books. rewrite Hq. unfold kneighbors.
    replace (k + 1 <=? 0)%Z with true by (symmetry; apply Z.leb_le; lia). reflexivity.
Qed.

(** Top page *)

Lemma top_books_page_unfold ratings_df books_df :
  top_books_page ratings_df books_df =
  firstn 20 (sort_by_num_ratings_desc
    (map (agg_group (merge_on_isbn (explicit_ratings ratings_df) (drop_duplicates_title books_df)))
       (sort_uniq str_cmp (map rb_title (merge_on_isbn (explicit_ratings ratings_df)
                                            (drop_duplicates_title books_df)))))).
Proof. reflexivity. Qed.

(** X12: for any ratings and books tables, [get_top_20_books] returns [min 20 n] rows, [n] the number of distinct titles in its join of explicit ratings and books, with distinct titles, each of the join and with at least one rating. *)
Theorem get_top_20_books_rows (ratings_df : list Rating) (books_df : list Book) :
  let merged := merge_on_isbn (explicit_ratings ratings_df) books_df in
  List.length (get_top_20_books ratings_df books_df) =
    Nat.min 20 (List.length (sort_uniq str_cmp (map rb_title merged))) /\
  NoDup (map tb_title (get_top_20_books ratings_df books_df)) /\
  Forall (fun tb => (1 <= tb_num_ratings tb)%nat /\ In (tb_title tb) (map rb_title merged))
    (get_top_20_books ratings_df books_df).
Proof.
  intro merged. unfold get_top_20_books. cbv zeta. fold merged.
  set (keys := sort_uniq str_cmp (map rb_title merged)).
  pose proof (sort_by_num_ratings_perm (map (agg_group merged) keys)) as Hp.
  assert (Htitles : map tb_title (map (agg_group merged) keys) = keys)
    by (rewrite map_map; apply map_id).
  split; [rewrite length_firstn, (Permutation_length Hp), length_map; reflexivity |].
  split.
  - rewrite <- firstn_map. apply NoDup_firstn_l.
    apply (Permutation_NoDup (Permutation_map tb_title (Permutation_sym Hp))).
    rewrite Htitles. apply sort_uniq_str_NoDup.
  - apply Forall_forall. intros tb Htb. apply In_firstn_l in Htb.
    apply (Permutation_in _ Hp), in_map_iff in Htb as (t & <- & Ht).
    unfold keys in Ht. rewrite In_sort_uniq_str in Ht.
    split; [| exact Ht].
    apply in_map_iff in Ht as (x & Hxt & Hx). simpl.
    destruct (filter (fun y => String.eqb (rb_title y) t) merged) eqn:Ef.
    + exfalso. assert (Hin : In x (filter (fun y => String.eqb (rb_title y) t) merged))
        by (apply filter_In; split; [exact Hx | apply String.eqb_eq; exact Hxt]).
      rewrite Ef in Hin. exact Hin.
    + simpl. lia.
Qed.

Lemma top_books_page_first_book ratings_df books_df tb :
  In tb (top_books_page ratings_df books_df) ->
  exists b, find (fun b => String.eqb (book_title b) (tb_title tb)) books_df = Some b /\
    tb_author tb = book_author b /\ tb_image tb = image_url_l b.
Proof.
  rewrite top_books_page_unfold.
  set (merged := merge_on_isbn (explicit_ratings ratings_df) (drop_duplicates_title books_df)).
  intro Htb. apply In_firstn_l in Htb.
  apply (Permutation_in _ (sort_by_num_ratings_perm _)) in Htb.
  apply in_map_iff in Htb as (t & <- & Ht).
  apply In_sort_uniq_str, in_map_iff in Ht as (x & Hxt & Hx). simpl.
  destruct (merged_group_from_first_book _ _ _ _ Hx Hxt) as (b & Hf & _).
  exists b. split; [exact Hf |].
  assert (Hgrp : forall y, In y (filter (fun x => String.eqb (rb_title x) t) merged) ->
                   rb_author y = book_author b /\ rb_image y = image_url_l b).
  { intros y Hy. apply filter_In in Hy as [Hy Hyt]. apply String.eqb_eq in Hyt.
    destruct (merged_group_from_first_book _ _ _ _ Hy Hyt) as (b' & Hf' & Ha & Hi).
    rewrite Hf in Hf'. injection Hf' as <-. auto. }
  assert (Hne : filter (fun x => String.eqb (rb_title x) t) merged <> []).
  { intro Hnil. assert (Hin : In x (filter (fun x => String.eqb (rb_title x) t) merged)).
    { apply filter_In. split; [exact Hx | apply String.eqb_eq; exact Hxt]. }
    rewrite Hnil in Hin. exact Hin. }
  split; apply first_valid_const.
  - intros y Hy. apply in_map_iff in Hy as (z & <- & Hz). apply (Hgrp z Hz).
  - intro H. apply map_eq_nil in H. exact (Hne H).
  - intros y Hy. apply in_map_iff in Hy as (z & <- & Hz). apply (Hgrp z Hz).
  - intro H. apply map_eq_nil in H. exact (Hne H).
Qed.

Lemma render_top_rows_None st idx rows :
  render_top_rows st idx rows = None <-> exists tb, In tb rows /\ tb_author tb = None.
Proof.
  revert idx. induction rows as [|row rows IH]; intro idx; simpl.
  - split; [discriminate | intros (tb & [] & _)].
  - unfold render_top_row at 1. destruct (tb_author row) as [a|] eqn:Ea.
    + destruct (render_top_rows st (S idx) rows) eqn:Er; simpl.
      * split; [discriminate |]. intros (tb & [<- | Htb] & Hn); [congruence |].
        assert (Hx : render_top_rows st (S idx) rows = None) by (apply IH; eauto).
        congruence.
      * split; [intros _ | reflexivity].
        destruct (proj1 (IH (S idx)) Er) as (tb & Htb & Hn). eauto.
    + split; [intros _; exists row; auto | reflexivity].
Qed.

(** X13: the top-books page fails (the [TypeError] of [len] on NaN) iff one of its rows has a first book row without author. *)
Theorem top_page_fails_iff_missing_author (st_image_ok : option string -> bool)
    (ratings_df : list Rating) (books_df : list Book) :
  top_page st_image_ok ratings_df books_df = None <->
  exists tb b, In tb (top_books_page ratings_df books_df) /\
    find (fun b => String.eqb (book_title b) (tb_title tb)) books_df = Some b /\
    book_author b = None.
Proof.
  unfold top_page. rewrite render_top_rows_None. split.
  - intros (tb & Htb & Hn). destruct (top_books_page_first_book _ _ _ Htb) as (b & Hf & Ha & _).
    exists tb, b. split; [exact Htb | split; [exact Hf | congruence]].
  - intros (tb & b & Htb & Hf & Hn). exists tb. split; [exact Htb |].
    destruct (top_books_page_first_book _ _ _ Htb) as (b' & Hf' & Ha & _).
    rewrite Hf in Hf'. injection Hf' as <-. congruence.
Qed.

(** Truncated display text *)

Lemma substring_0_length n s : String.length (substring 0 n s) = Nat.min n (String.length s).
Proof.
  revert n. induction s as [|c s IH]; intros [|n]; simpl; try reflexivity.
  rewrite IH. reflexivity.
Qed.

Lemma substring_0_prefix n s : exists rest, s = (substring 0 n s ++ rest)%string.
Proof.
  revert n. induction s as [|c s IH]; intros [|n]; simpl.
  - exists "". reflexivity.
  - exists "". reflexivity.
  - exists (String c s). reflexivity.
  - destruct (IH n) as [rest Hr]. exists rest. rewrite Hr at 1. reflexivity.
Qed.

Lemma string_length_append (a b : string) :
  String.length (a ++ b) = (String.length a + String.length b)%nat.
Proof. induction a as [|c a IH]; simpl; [reflexivity | rewrite IH; reflexivity]. Qed.

(** X14: the shortening of titles and authors on the top-books page gives at most [n + 3] characters, leaves a string of at most [n] characters as it is and otherwise keeps its first [n] characters followed by [...]. *)
Theorem shorten_spec (n : nat) (s : string) :
  (String.length (shorten n s) <= n + 3)%nat /\
  ((String.length s <= n)%nat -> shorten n s = s) /\
  ((n < String.length s)%nat ->
   String.length (substring 0 n s) = n /\
   (exists rest, s = (substring 0 n s ++ rest)%string) /\
   shorten n s = (substring 0 n s ++ "...")%string).
Proof.
  unfold shorten. destruct (n <? String.length s)%nat eqn:E.
  - apply Nat.ltb_lt in E. split.
    + rewrite string_length_append, substring_0_length. simpl. lia.
    + split; [intro; lia |]. intros _.
      split; [rewrite substring_0_length; lia |].
      split; [apply substring_0_prefix | reflexivity].
  - apply Nat.ltb_ge in E. split; [lia |]. split; [reflexivity | intro; lia].
Qed.

(** Recommender page *)

Lemma render_recs_shape st idx recs :
  map card_rank (render_recs st idx recs) = map rec_rank recs /\
  map card_col (render_recs st idx recs) = map (fun i => Nat.modulo i 4) (seq idx (List.length recs)).
Proof.
  revert idx. induction recs as [|r recs IH]; intro idx; simpl; [auto |].
  destruct (IH (S idx)) as [H1 H2]. rewrite H1, H2. auto.
Qed.

Lemma recommend_books_small (book_name : string) (pv : Pivot)
    (order : nat -> list nat) (dist : nat -> nat -> Q) (bi : list BookInfo) :
  In book_name (pv_index pv) -> (List.length (pv_index pv) <= 5)%nat ->
  recommend_books book_name pv (fit_nearest_neighbors 20 pv order dist) bi 5 = Err ValueError.
Proof.
  intros Hin Hn.
  destruct (get_loc_In _ _ _ str_cmp_spec str_lt_irrefl _ _ Hin) as (q & Hq & _).
  unfold recommend_books. rewrite Hq. unfold kneighbors. simpl.
  replace (Z.of_nat (List.length (pv_index pv)) <? 6)%Z with true
    by (symmetry; apply Z.ltb_lt; lia).
  reflexivity.
Qed.

Lemma recommend_page_large st t pv order dist books_df :
  In t (pv_index pv) -> t <> "" ->
  (forall q, (q < List.length (pv_index pv))%nat ->
     Permutation (order q) (seq 0 (List.length (pv_index pv)))) ->
  (6 <= List.length (pv_index pv))%nat ->
  exists cards,
    recommend_page st t true pv (fit_nearest_neighbors 20 pv order dist) (build_book_info pv books_df)
      = RecShown (Some ("Recommendations for '" ++ t ++ "'")) cards /\
    map card_rank cards = [1; 2; 3; 4; 5]%nat /\ map card_col cards = [0; 1; 2; 3; 0]%nat.
Proof.
  intros Hin Hne Hord Hn.
  destruct (recommend_books_full_ranking t pv order dist books_df 5 Hin ltac:(lia) ltac:(lia) Hord)
    as (items & He & Hr & _).
  unfold recommend_page. simpl negb. apply String.eqb_neq in Hne. rewrite Hne, He.
  destruct items as [|it items']; [discriminate |].
  eexists. split; [reflexivity |].
  destruct (render_recs_shape st 0 (it :: items')) as [H1 H2].
  rewrite H1, Hr. split; [reflexivity |]. rewrite H2.
  replace (List.length (it :: items')) with 5%nat
    by (rewrite <- (length_map rec_rank), Hr; reflexivity).
  reflexivity.
Qed.

(** X15: on a click with a non-empty matrix title and an index that returns every row, the recommendation page shows the error of the [except] branch (ValueError) when the matrix has at most 5 rows, and otherwise 5 cards ranked 1 to 5 in the columns 0, 1, 2, 3, 0. *)
Theorem recommend_page_outcome (st_image_ok : option string -> bool) (t : string) (pv : Pivot)
    (order : nat -> list nat) (dist : nat -> nat -> Q) (books_df : list Book) :
  In t (pv_index pv) -> t <> "" ->
  (forall q, (q < List.length (pv_index pv))%nat ->
     Permutation (order q) (seq 0 (List.length (pv_index pv)))) ->
  ((List.length (pv_index pv) <= 5)%nat ->
   recommend_page st_image_ok t true pv (fit_nearest_neighbors 20 pv order dist)
     (build_book_info pv books_df) = RecFailed ValueError) /\
  ((6 <= List.length (pv_index pv))%nat ->
   exists cards,
     recommend_page st_image_ok t true pv (fit_nearest_neighbors 20 pv order dist)
       (build_book_info pv books_df)
       = RecShown (Some ("Recommendations for '" ++ t ++ "'")) cards /\
     map card_rank cards = [1; 2; 3; 4; 5]%nat /\ map card_col cards = [0; 1; 2; 3; 0]%nat).
Proof.
  intros Hin Hne Hord. split.
  - intro Hn. unfold recommend_page. simpl negb. apply String.eqb_neq in Hne. rewrite Hne.
    rewrite recommend_books_small by assumption. reflexivity.
  - intro Hn. apply recommend_page_large; assumption.
Qed.

(** X16: for any entry of the select box, the empty one or a matrix title, the recommendation page never shows the not-found error. *)
Theorem recommend_page_never_not_found (st_image_ok : option string -> bool) (t : string)
    (clicked : bool) (pv : Pivot) (order : nat -> list nat) (dist : nat -> nat -> Q)
    (books_df : list Book) (msg : string) :
  In t (title_options pv) ->
  (forall q, (q < List.length (pv_index pv))%nat ->
     Permutation (order q) (seq 0 (List.length (pv_index pv)))) ->
  recommend_page st_image_ok t clicked pv (fit_nearest_neighbors 20 pv order dist)
    (build_book_info pv books_df) <> RecNotFound msg.
Proof.
  intros Hopt Hord. destruct clicked; [| discriminate].
  destruct (String.eqb t "") eqn:Ee.
  { unfold recommend_page. simpl negb. rewrite Ee. discriminate. }
  apply String.eqb_neq in Ee.
  assert (Hin : In t (pv_index pv)) by (destruct Hopt as [H | H]; [congruence | exact H]).
  destruct (Nat.le_gt_cases (List.length (pv_index pv)) 5) as [Hs | Hl].
  - unfold recommend_page. simpl negb. pose proof Ee as Ee'. apply String.eqb_neq in Ee'.
    rewrite Ee', recommend_books_small by assumption. discriminate.
  - destruct (recommend_page_large st_image_ok t pv order dist books_df Hin Ee Hord ltac:(lia))
      as (cards & -> & _). discriminate.
Qed.

(** Start of the application *)

Lemma fs_run_app fs ops1 ops2 : fs_run fs (ops1 ++ ops2) = fs_run (fs_run fs ops1) ops2.
Proof. unfold fs_run. apply fold_left_app. Qed.

Lemma fs_run_dump fs p blob :
  fs_run fs (dump_to p blob) p = Some (List.concat blob) /\
  (forall p', p' <> p -> fs_run fs (dump_to p blob) p' = fs p').
Proof.
  destruct (fs_run_dump_prefix fs p blob (List.length blob)) as [H1 H2].
  rewrite firstn_all in H1, H2. exact (conj H1 H2).
Qed.

Lemma save_artifacts_files fs pb mb :
  fs_run fs (save_artifacts pb mb) book_pivot_path = Some (List.concat pb) /\
  fs_run fs (save_artifacts pb mb) model_knn_path = Some (List.concat mb) /\
  (forall p, p <> book_pivot_path -> p <> model_knn_path -> fs_run fs (save_artifacts pb mb) p = fs p).
Proof.
  unfold save_artifacts. rewrite fs_run_app.
  destruct (fs_run_dump fs book_pivot_path pb) as [P1 P2].
  destruct (fs_run_dump (fs_run fs (dump_to book_pivot_path pb)) model_knn_path mb) as [M1 M2].
  split; [rewrite M2 by discriminate; exact P1 |].
  split; [exact M1 |].
  intros p Hp Hm. rewrite (M2 p Hm). exact (P2 p Hp).
Qed.

Lemma load_read_ok readable fs p b : load_read readable fs p = inr b -> fs p = Some b.
Proof.
  unfold load_read, read_file. destruct (fs p) as [b'|]; [| discriminate].
  destruct (readable p b'); [| discriminate]. intro H. injection H as <-. reflexivity.
Qed.

Lemma load_or_preprocess_data_ok readable preprocess fs fs' :
  load_or_preprocess_data readable preprocess fs = inr fs' ->
  fs books_csv_path <> None /\ fs ratings_csv_path <> None /\
  fs' book_pivot_path <> None /\ fs' model_knn_path <> None /\
  fs' books_csv_path = fs books_csv_path /\ fs' ratings_csv_path = fs ratings_csv_path.
Proof.
  unfold load_or_preprocess_data. destruct (loads_cached_artifacts fs) eqn:Ec.
  - destruct (load_read readable fs book_pivot_path) as [e|b1] eqn:E1; cbv beta iota delta [sum_bind]; [discriminate |].
    destruct (load_read readable fs model_knn_path) as [e|b2] eqn:E2; cbv beta iota delta [sum_bind]; [discriminate |].
    destruct (load_read readable fs books_csv_path) as [e|b3] eqn:E3; cbv beta iota delta [sum_bind]; [discriminate |].
    destruct (load_read readable fs ratings_csv_path) as [e|b4] eqn:E4; cbv beta iota delta [sum_bind]; [discriminate |].
    intro H. injection H as <-.
    apply load_read_ok in E1, E2, E3, E4. rewrite E1, E2, E3, E4.
    repeat split; discriminate.
  - destruct (load_read readable fs books_csv_path) as [e|b1] eqn:E1; cbv beta iota delta [sum_bind]; [discriminate |].
    destruct (load_read readable fs ratings_csv_path) as [e|b2] eqn:E2; cbv beta iota delta [sum_bind]; [discriminate |].
    destruct (load_read readable fs users_csv_path) as [e|b3] eqn:E3; cbv beta iota delta [sum_bind]; [discriminate |].
    destruct (preprocess b1 b2 b3) as [[pb mb]|]; [| discriminate].
    intro H. assert (Ef : fs' = fs_run fs (save_artifacts pb mb)) by congruence. subst fs'.
    apply load_read_ok in E1, E2.
    destruct (save_artifacts_files fs pb mb) as (S1 & S2 & S3).
    rewrite S1, S2, !S3 by discriminate. rewrite E1, E2.
    repeat split; discriminate.
Qed.

Lemma reload_globals_not_missing readable fs p :
  fs book_pivot_path <> None -> fs model_knn_path <> None ->
  fs books_csv_path <> None -> fs ratings_csv_path <> None ->
  reload_globals readable fs <> inl (FileNotFoundError p).
Proof.
  intros H1 H2 H3 H4. unfold reload_globals, read_file.
  destruct (fs book_pivot_path) as [b1|]; [| congruence].
  destruct (fs model_knn_path) as [b2|]; [| congruence].
  destruct (fs books_csv_path) as [b3|]; [| congruence].
  destruct (fs ratings_csv_path) as [b4|]; [| congruence].
  destruct (readable book_pivot_path b1); simpl; [| discriminate].
  destruct (readable model_knn_path b2); simpl; [| discriminate].
  destruct (readable books_csv_path b3); simpl; [| discriminate].
  destruct (readable ratings_csv_path b4); simpl; discriminate.
Qed.

(** X17: the start never shows the message of the [FileNotFoundError] branch: when the loading returns, the four files read again exist. *)
Theorem startup_never_shows_file_not_found
    (readable : string -> list nat -> bool)
    (preprocess : list nat -> list nat -> list nat -> option (list (list nat) * list (list nat)))
    (fs : FileSystem) (p : string) :
  startup readable preprocess fs <> FileNotFoundShown p.
Proof.
  unfold startup. destruct (load_or_preprocess_data readable preprocess fs) as [e|fs'] eqn:E;
    [discriminate |].
  destruct (load_or_preprocess_data_ok _ _ _ _ E) as (Hb & Hr & Hp & Hm & Eb & Er).
  pose proof (reload_globals_not_missing readable fs' p Hp Hm ltac:(congruence) ltac:(congruence)) as Hn.
  destruct (reload_globals readable fs') as [[p'|p']|[]]; try discriminate.
  intro H. injection H as ->. exact (Hn eq_refl).
Qed.

(** X18: when [Books.csv] or [Ratings.csv] is missing, the start crashes: the loading of line 88 is outside any [try]. *)
Theorem startup_missing_csv_crashes
    (readable : string -> list nat -> bool)
    (preprocess : list nat -> list nat -> list nat -> option (list (list nat) * list (list nat)))
    (fs : FileSystem) :
  fs books_csv_path = None \/ fs ratings_csv_path = None ->
  exists e, startup readable preprocess fs = Crashed e.
Proof.
  intro Hmiss. unfold startup.
  destruct (load_or_preprocess_data readable preprocess fs) as [e|fs'] eqn:E; [eauto |].
  destruct (load_or_preprocess_data_ok _ _ _ _ E) as (Hb & Hr & _).
  destruct Hmiss; contradiction.
Qed.

Ltac destruct_reads :=
  repeat match goal with
  | |- context [match ?fs ?p with Some _ => _ | None => _ end] =>
      let E := fresh "E" in destruct (fs p) eqn:E
  | |- context [if ?r ?p ?b then _ else _] =>
      let E := fresh "R" in destruct (r p b) eqn:E
  end; cbv beta iota delta [sum_bind].

Lemma startup_cached_cases readable preprocess fs :
  loads_cached_artifacts fs = true ->
  (exists e, startup readable preprocess fs = Crashed (LoadIOError e)) \/
  startup readable preprocess fs = Started fs.
Proof.
  intro Hc. unfold startup, load_or_preprocess_data, reload_globals, load_read, read_file.
  rewrite Hc. destruct_reads; eauto.
  right. rewrite E, E0, E1, E2, R, R0, R1, R2. reflexivity.
Qed.

Lemma startup_cached_start readable preprocess fs b1 b2 b3 b4 :
  fs book_pivot_path = Some b1 -> fs model_knn_path = Some b2 ->
  fs books_csv_path = Some b3 -> fs ratings_csv_path = Some b4 ->
  readable book_pivot_path b1 = true -> readable model_knn_path b2 = true ->
  readable books_csv_path b3 = true -> readable ratings_csv_path b4 = true ->
  startup readable preprocess fs = Started fs.
Proof.
  intros H1 H2 H3 H4 R1 R2 R3 R4.
  unfold startup, load_or_preprocess_data, reload_globals, load_read, read_file.
  assert (Hc : loads_cached_artifacts fs = true)
    by (unfold loads_cached_artifacts, file_exists; rewrite H1, H2; reflexivity).
  rewrite Hc, H1, H2, H3, H4, R1, R2, R3, R4. cbv beta iota delta [sum_bind].
  rewrite H1, H2, H3, H4, R1, R2, R3, R4. reflexivity.
Qed.

Lemma save_prefix_files fs0 pb mb i :
  (1 <= i <= S (List.length pb))%nat ->
  fs_run fs0 (firstn i (save_artifacts pb mb)) book_pivot_path
    = Some (List.concat (firstn (i - 1) pb)) /\
  (forall p, p <> book_pivot_path -> fs_run fs0 (firstn i (save_artifacts pb mb)) p = fs0 p).
Proof.
  intro Hi. unfold save_artifacts. rewrite firstn_app.
  replace (i - List.length (dump_to book_pivot_path pb))%nat with 0%nat
    by (unfold dump_to; simpl; rewrite length_map; lia).
  rewrite firstn_0, app_nil_r.
  destruct i as [|j]; [lia |]. unfold dump_to. simpl firstn.
  rewrite firstn_map, ?Nat.sub_0_r.
  exact (fs_run_dump_prefix fs0 book_pivot_path pb j).
Qed.

(** X19: a first start with readable CSV files builds, writes both artifacts and starts; a later start that finds the same four files loads them, writes nothing and starts, whatever else is on disk ([Users.csv] is not read). *)
Theorem startup_fresh_then_cached
    (readable : string -> list nat -> bool)
    (preprocess : list nat -> list nat -> list nat -> option (list (list nat) * list (list nat)))
    (fs : FileSystem) (bb rb ub : list nat) (pb mb : list (list nat)) :
  loads_cached_artifacts fs = false ->
  fs books_csv_path = Some bb -> fs ratings_csv_path = Some rb -> fs users_csv_path = Some ub ->
  readable books_csv_path bb = true -> readable ratings_csv_path rb = true ->
  readable users_csv_path ub = true ->
  preprocess bb rb ub = Some (pb, mb) ->
  readable book_pivot_path (List.concat pb) = true ->
  readable model_knn_path (List.concat mb) = true ->
  startup readable preprocess fs = Started (fs_run fs (save_artifacts pb mb)) /\
  fs_run fs (save_artifacts pb mb) book_pivot_path = Some (List.concat pb) /\
  fs_run fs (save_artifacts pb mb) model_knn_path = Some (List.concat mb) /\
  (forall fs2 : FileSystem,
     fs2 book_pivot_path = Some (List.concat pb) ->
     fs2 model_knn_path = Some (List.concat mb) ->
     fs2 books_csv_path = Some bb -> fs2 ratings_csv_path = Some rb ->
     startup readable preprocess fs2 = Started fs2).
Proof.
  intros Hc Hb Hr Hu Rb Rr Ru Hp Rp Rm.
  destruct (save_artifacts_files fs pb mb) as (S1 & S2 & S3).
  split; [| split; [exact S1 | split; [exact S2 |]]].
  - unfold startup.
    assert (Hl : load_or_preprocess_data readable preprocess fs = inr (fs_run fs (save_artifacts pb mb))).
    { unfold load_or_preprocess_data, load_read, read_file.
      rewrite Hc, Hb, Hr, Hu, Rb, Rr, Ru. cbv beta iota delta [sum_bind]. rewrite Hp. reflexivity. }
    rewrite Hl. unfold reload_globals, read_file.
    rewrite S1, S2, !S3 by discriminate. rewrite Hb, Hr, Rp, Rm, Rb, Rr. reflexivity.
  - intros fs2 H1 H2 H3 H4. exact (startup_cached_start readable preprocess fs2 _ _ _ _ H1 H2 H3 H4 Rp Rm Rb Rr).
Qed.

(** X20: after a save interrupted while the matrix is written, with the index file of an earlier build on disk, the next start never rebuilds: it crashes in the loading or starts on the files as they are, and it crashes when the truncated matrix cannot be loaded. *)
Theorem startup_after_interrupted_save
    (readable : string -> list nat -> bool)
    (preprocess : list nat -> list nat -> list nat -> option (list (list nat) * list (list nat)))
    (fs0 : FileSystem) (pb mb : list (list nat)) (i : nat) :
  (1 <= i <= S (List.length pb))%nat ->
  fs0 model_knn_path <> None ->
  ((exists e, startup readable preprocess (fs_run fs0 (firstn i (save_artifacts pb mb)))
                = Crashed (LoadIOError e)) \/
   startup readable preprocess (fs_run fs0 (firstn i (save_artifacts pb mb)))
     = Started (fs_run fs0 (firstn i (save_artifacts pb mb)))) /\
  (readable book_pivot_path (List.concat (firstn (i - 1) pb)) = false ->
   startup readable preprocess (fs_run fs0 (firstn i (save_artifacts pb mb)))
     = Crashed (LoadIOError (UnreadableFile book_pivot_path))).
Proof.
  intros Hi Hm.
  destruct (save_prefix_files fs0 pb mb i Hi) as [H1 H2].
  assert (Hc : loads_cached_artifacts (fs_run fs0 (firstn i (save_artifacts pb mb))) = true).
  { unfold loads_cached_artifacts, file_exists. rewrite H1, (H2 model_knn_path ltac:(discriminate)).
    destruct (fs0 model_knn_path); [reflexivity | contradiction]. }
  split; [exact (startup_cached_cases readable preprocess _ Hc) |].
  intro Hu. unfold startup, load_or_preprocess_data, load_read, read_file.
  rewrite Hc, H1, Hu. reflexivity.
Qed.

(** ** Concrete runs of the properties above *)

Lemma rows_from_perm q n : (q < n)%nat -> Permutation (rows_from q n) (seq 0 n).
Proof.
  intro Hq. apply NoDup_Permutation; [apply rows_from_NoDup | apply seq_NoDup |].
  intro x. split.
  - intro Hx. apply in_seq. pose proof (rows_from_range q n x Hq Hx). lia.
  - intro Hx. unfold rows_from. destruct (Nat.eq_dec q x) as [<- | Hne]; [left; reflexivity |].
    right. apply filter_In. split; [exact Hx |].
    apply negb_true_iff, Nat.eqb_neq. intro E. apply Hne. symmetry. exact E.
Qed.

Lemma ten_readers_ratings r : In r ten_readers -> (0 <= r_rating r <= 10)%Z.
Proof.
  unfold ten_readers. intro Hr. apply in_flat_map in Hr as (u & _ & Hr).
  apply in_map_iff in Hr as (b & <- & _). simpl. lia.
Qed.

Lemma preprocess_users_keeps_all_witness :
  map fst (preprocess_users sample_users) = map user_id sample_users.
Proof.
  apply preprocess_users_keeps_all.
  - exists (mkUser 1 (Some 30%Q)), 30%Q. split; [left; reflexivity | reflexivity].
  - intros u a Hu Ha. destruct Hu as [<- | [<- | [<- | []]]]; simpl in Ha;
      try discriminate; injection Ha as <-; split; lra.
Defined.

Lemma preprocess_users_no_age_witness : preprocess_users ageless_users = [].
Proof.
  apply preprocess_users_no_age. intros u [<- | [<- | []]]; reflexivity.
Defined.

Lemma build_book_pivot_cells_witness :
  exists row v,
    nth_error (pv_values (build_book_pivot ten_readers three_titles_books)) 0 = Some row /\
    nth_error row 0 = Some v /\
    (v == 0 <-> ~ exists x, In x (filtered_ratings ten_readers three_titles_books) /\
                            rb_title x = "t00" /\ rb_user x = 1%Z) /\
    (~ v == 0 -> 1 <= v <= 10).
Proof.
  assert (Hi : nth_error (pv_index (build_book_pivot ten_readers three_titles_books)) 0 = Some "t00")
    by (vm_compute; reflexivity).
  assert (Hj : nth_error (pv_columns (build_book_pivot ten_readers three_titles_books)) 0 = Some 1%Z)
    by (vm_compute; reflexivity).
  exact (build_book_pivot_cells ten_readers three_titles_books ten_readers_ratings 0 0 "t00" 1%Z Hi Hj).
Defined.

Lemma build_book_pivot_no_zero_line_witness :
  (forall row, In row (pv_values (build_book_pivot ten_readers three_titles_books)) ->
     exists v, In v row /\ ~ v == 0) /\
  (forall j, (j < List.length (pv_columns (build_book_pivot ten_readers three_titles_books)))%nat ->
     exists row v, In row (pv_values (build_book_pivot ten_readers three_titles_books)) /\
       nth_error row j = Some v /\ ~ v == 0).
Proof.
  apply build_book_pivot_no_zero_line. intros r Hr. apply (ten_readers_ratings r Hr).
Defined.

Lemma preprocess_books_rows_witness :
  exists cs, preprocess_books decimal_year x86_cast_out_of_range sample_raw_books = Ok cs /\
  Forall2 (fun b c =>
    cb_isbn c = raw_isbn b /\ cb_title c = raw_title b /\
    exists y, cb_year c = cast_int64 x86_cast_out_of_range y /\
      ((- 2 ^ 63 <= py_int y <= 2 ^ 63 - 1)%Z -> cb_year c = py_int y) /\
      (numeric_year decimal_year b = Some (FNum y) \/
       (numeric_year decimal_year b = None /\
        median_float (flat_map (fun b' => opt_to_list (numeric_year decimal_year b')) sample_raw_books)
          = Some (FNum y) /\
        exists b1 b2, In b1 sample_raw_books /\ In b2 sample_raw_books /\
          exists lo hi, numeric_year decimal_year b1 = Some (FNum lo) /\
                        numeric_year decimal_year b2 = Some (FNum hi) /\ lo <= y <= hi)))
    sample_raw_books cs.
Proof.
  destruct (preprocess_books decimal_year x86_cast_out_of_range sample_raw_books) as [cs | e] eqn:E.
  - exists cs. split; [reflexivity |]. exact (preprocess_books_rows decimal_year x86_cast_out_of_range sample_raw_books cs E).
  - vm_compute in E. discriminate E.
Defined.

Lemma build_pivot_ignores_book_preprocessing_witness :
  exists cs, preprocess_books decimal_year x86_cast_out_of_range sample_raw_books = Ok cs /\
    build_book_pivot sample_ratings (map clean_book cs)
    = build_book_pivot sample_ratings (map raw_book sample_raw_books).
Proof.
  destruct (preprocess_books decimal_year x86_cast_out_of_range sample_raw_books) as [cs | e] eqn:E.
  - exists cs. split; [reflexivity |].
    exact (build_pivot_ignores_book_preprocessing decimal_year x86_cast_out_of_range sample_ratings sample_raw_books cs E).
  - vm_compute in E. discriminate E.
Defined.

Lemma recommend_books_exactly_k_witness :
  exists items,
    recommend_books "t03" pivot30 (fit_nearest_neighbors 20 pivot30 (nn_order model30) (nn_dist model30))
      (build_book_info pivot30 books30) 5
      = Ok (Some ("Recommendations for '" ++ "t03" ++ "'"), items) /\
    List.length items = Z.to_nat 5 /\
    Forall (fun it =>
      rec_author it = match find (fun b => String.eqb (book_title b) (rec_title it)) books30 with
                      | Some b => match book_author b with Some a => a | None => "Unknown" end
                      | None => "Unknown"
                      end /\
      rec_image_url it = match find (fun b => String.eqb (book_title b) (rec_title it)) books30 with
                         | Some b => match image_url_l b with Some i => i | None => "No Image" end
                         | None => "No Image"
                         end) items.
Proof.
  assert (Hl : List.length (pv_index pivot30) = 30%nat) by (vm_compute; reflexivity).
  assert (H1 : In "t03" (pv_index pivot30)) by (vm_compute; tauto).
  assert (H2 : (0 <= 5)%Z) by lia.
  assert (H3 : (5 + 1 <= Z.of_nat (List.length (pv_index pivot30)))%Z) by (rewrite Hl; lia).
  assert (H4 : forall q, (q < List.length (pv_index pivot30))%nat ->
                 Permutation (nn_order model30 q) (seq 0 (List.length (pv_index pivot30)))).
  { rewrite Hl. intros q Hq. exact (rows_from_perm q 30 Hq). }
  exact (recommend_books_exactly_k "t03" pivot30 (nn_order model30) (nn_dist model30)
           books30 5 H1 H2 H3 H4).
Defined.

Lemma recommend_books_nonpositive_k_witness :
  recommend_books "A" small_pivot (fit_nearest_neighbors 20 small_pivot (nn_order small_model) (nn_dist small_model))
    [] 0 = Ok (Some ("Recommendations for '" ++ "A" ++ "'"), []) /\
  recommend_books "A" small_pivot (fit_nearest_neighbors 20 small_pivot (nn_order small_model) (nn_dist small_model))
    [] (-1) = Err ValueError.
Proof.
  assert (H : In "A" (pv_index small_pivot)) by (left; reflexivity).
  destruct (recommend_books_nonpositive_k "A" small_pivot (nn_order small_model) (nn_dist small_model)
              [] 0 H) as [H0 _].
  destruct (recommend_books_nonpositive_k "A" small_pivot (nn_order small_model) (nn_dist small_model)
              [] (-1) H) as [_ H1].
  split; [apply H0; reflexivity | apply H1; lia].
Defined.

Lemma recommend_page_outcome_witness :
  recommend_page (fun _ => true) "A" true small_pivot
    (fit_nearest_neighbors 20 small_pivot (fun q => rows_from q 2) (fun _ _ => 0))
    (build_book_info small_pivot small_books) = RecFailed ValueError /\
  exists cards,
    recommend_page (fun _ => true) "t03" true pivot30
      (fit_nearest_neighbors 20 pivot30 (nn_order model30) (nn_dist model30))
      (build_book_info pivot30 books30)
      = RecShown (Some ("Recommendations for '" ++ "t03" ++ "'")) cards /\
    map card_rank cards = [1; 2; 3; 4; 5]%nat /\ map card_col cards = [0; 1; 2; 3; 0]%nat.
Proof.
  assert (Hs : List.length (pv_index small_pivot) = 2%nat) by reflexivity.
  assert (Hl : List.length (pv_index pivot30) = 30%nat) by (vm_compute; reflexivity).
  assert (P2 : forall q, (q < List.length (pv_index small_pivot))%nat ->
                 Permutation (rows_from q 2) (seq 0 (List.length (pv_index small_pivot)))).
  { rewrite Hs. intros q Hq. exact (rows_from_perm q 2 Hq). }
  assert (P30 : forall q, (q < List.length (pv_index pivot30))%nat ->
                 Permutation (nn_order model30 q) (seq 0 (List.length (pv_index pivot30)))).
  { rewrite Hl. intros q Hq. exact (rows_from_perm q 30 Hq). }
  destruct (recommend_page_outcome (fun _ => true) "A" small_pivot (fun q => rows_from q 2) (fun _ _ => 0)
              small_books ltac:(left; reflexivity) ltac:(discriminate) P2) as [HA _].
  destruct (recommend_page_outcome (fun _ => true) "t03" pivot30 (nn_order model30) (nn_dist model30)
              books30 ltac:(vm_compute; tauto) ltac:(discriminate) P30) as [_ HB].
  split; [apply HA; rewrite Hs; lia | apply HB; rewrite Hl; lia].
Defined.

Lemma recommend_page_never_not_found_witness :
    recommend_page (fun _ => true) "t03" true pivot30
      (fit_nearest_neighbors 20 pivot30 (nn_order model30) (nn_dist model30))
      (build_book_info pivot30 books30)
    <> RecNotFound "Book 't03' not found in the dataset. Please check the spelling.".
Proof.
  assert (Hl : List.length (pv_index pivot30) = 30%nat) by (vm_compute; reflexivity).
  assert (P30 : forall q, (q < List.length (pv_index pivot30))%nat ->
                 Permutation (nn_order model30 q) (seq 0 (List.length (pv_index pivot30)))).
  { rewrite Hl. intros q Hq. exact (rows_from_perm q 30 Hq). }
  assert (Ht : In "t03" (title_options pivot30)) by (vm_compute; tauto).
  exact (recommend_page_never_not_found (fun _ => true) "t03" true pivot30 (nn_order model30)
           (nn_dist model30) books30 _ Ht P30).
Defined.

Lemma startup_missing_csv_crashes_witness :
  exists e, startup nonempty_file sample_build earlier_build_fs = Crashed e.
Proof.
  apply startup_missing_csv_crashes. left. vm_compute. reflexivity.
Defined.

Lemma startup_fresh_then_cached_witness :
  startup nonempty_file sample_build fresh_fs
    = Started (fs_run fresh_fs (save_artifacts [[1]; [2]]%nat [[3]]%nat)) /\
  fs_run fresh_fs (save_artifacts [[1]; [2]]%nat [[3]]%nat) book_pivot_path = Some (List.concat [[1]; [2]]%nat) /\
  fs_run fresh_fs (save_artifacts [[1]; [2]]%nat [[3]]%nat) model_knn_path = Some (List.concat [[3]]%nat) /\
  (forall fs2 : FileSystem,
     fs2 book_pivot_path = Some (List.concat [[1]; [2]]%nat) ->
     fs2 model_knn_path = Some (List.concat [[3]]%nat) ->
     fs2 books_csv_path = Some [1%nat] -> fs2 ratings_csv_path = Some [2%nat] ->
     startup nonempty_file sample_build fs2 = Started fs2).
Proof.
  apply startup_fresh_then_cached with (ub := [3%nat]); vm_compute; reflexivity.
Defined.

Lemma startup_after_interrupted_save_witness :
  startup nonempty_file sample_build
    (fs_run earlier_build_fs (firstn 1 (save_artifacts [[1]; [2]]%nat [[3]]%nat)))
  = Crashed (LoadIOError (UnreadableFile book_pivot_path)).
Proof.
  assert (Hi : (1 <= 1 <= S (List.length [[1]; [2]]%nat))%nat) by (simpl; lia).
  assert (Hm : earlier_build_fs model_knn_path <> None) by (vm_compute; discriminate).
  destruct (startup_after_interrupted_save nonempty_file sample_build earlier_build_fs
              [[1]; [2]]%nat [[3]]%nat 1 Hi Hm) as [_ H].
  apply H. reflexivity.
Defined.
